(** * ai-trainer API: Google sign-in, account bootstrap and session tokens

    A shallow embedding of the authentication core of [apps/api]:

    - [lib/jwt.ts]            ([generateToken], [verifyToken]),
    - [middleware/auth.ts]    ([authMiddleware]),
    - [service/auth-service.ts] ([authenticateWithGoogle]),
    - [repository/mysql]      ([findByProvider], the registration transaction),
    - [index.ts]              (the environment checks made at start-up),

    together with the tables and constraints of the initial migration.

    Asynchronous functions are functions in a state-and-exception monad over
    the [World] (the database and the clock); a JavaScript [throw] is the
    [Throw] completion.  The two npm packages the token service calls,
    [jsonwebtoken] and [ms], are outside the repository: [jwt_sign] and
    [jwt_verify] are a reference model of the former at the granularity the
    code observes, and the keyed digest and the time-span parser are section
    variables. *)

From Stdlib Require Import ZArith Ascii String List Lia.
From Stdlib Require Import Decimal DecimalString DecimalZ DecimalPos.
From stdpp Require Import base option list gmap strings sorting.

Local Open Scope string_scope.
Local Open Scope Z_scope.

(* ================================================================== *)
(** * JavaScript values and completions *)
(* ================================================================== *)

(** The errors that can travel through the code as thrown values.  A Prisma
    error carries its code ([P2002]: unique constraint, [P2003]: foreign key)
    and the constraint it names. *)
Inductive Error : Type :=
  | JsonWebTokenError (message : string)
  | TokenExpiredError (expiredAt : Z)
  | PrismaClientKnownRequestError (code : string) (target : string)
  | GenericError (message : string).

(** A completion of a call: it returns a value or throws. *)
Inductive Completion (A : Type) : Type :=
  | Return (a : A)
  | Throw (e : Error).
Arguments Return {A} a.
Arguments Throw {A} e.

(** [try { c } catch { h }]. *)
Definition try_catch {A} (c : Completion A) (h : Error -> Completion A)
  : Completion A :=
  match c with
  | Return a => Return a
  | Throw e => h e
  end.

(** JavaScript truthiness of an optional string: [undefined] and the empty
    string are falsy. *)
Definition truthy (v : option string) : bool :=
  match v with
  | None => false
  | Some s => negb (String.eqb s "")
  end.


(** [s.startsWith(p)]. *)
Definition startsWith (s p : string) : bool := String.prefix p s.

(** [s.substring(n)]: the string from index [n] to its end. *)
Fixpoint substring_from (n : nat) (s : string) : string :=
  match n, s with
  | O, _ => s
  | S n', String _ s' => substring_from n' s'
  | S _, EmptyString => EmptyString
  end.

(** [s.split(sep)] for a one-character separator. *)
Fixpoint split_on (sep : ascii) (s : string) : list string :=
  match s with
  | EmptyString => [EmptyString]
  | String c s' =>
      if Ascii.eqb c sep then EmptyString :: split_on sep s'
      else match split_on sep s' with
           | h :: t => String c h :: t
           | [] => [String c EmptyString]
           end
  end.

(** Whether a character occurs in a string. *)
Fixpoint occurs (c : ascii) (s : string) : bool :=
  match s with
  | EmptyString => false
  | String a s' => Ascii.eqb a c || occurs c s'
  end.

(** A character that is neither a digit nor the minus sign. *)
Definition not_numeric (c : ascii) : bool :=
  negb (existsb (fun a => Ascii.eqb a c)
          ["0"; "1"; "2"; "3"; "4"; "5"; "6"; "7"; "8"; "9"; "-"]%char).

(** Decimal rendering of a JSON number and its inverse. *)
Definition dec (z : Z) : string := NilZero.string_of_int (Z.to_int z).

Definition undec (s : string) : option Z :=
  option_map Z.of_int (NilZero.int_of_string s).

(** An optional JSON number: an absent field is the empty text. *)
Definition dec_opt (o : option Z) : string :=
  match o with
  | Some z => dec z
  | None => EmptyString
  end.

Definition undec_opt (s : string) : option (option Z) :=
  match s with
  | EmptyString => Some None
  | _ => option_map Some (undec s)
  end.

(* ================================================================== *)
(** * The token service: [lib/jwt.ts] over a model of [jsonwebtoken] *)
(* ================================================================== *)

(** [JWTPayload]: the object a verified token decodes to. *)
Record JWTPayload : Type := mkJWTPayload {
  exp : option Z;
  iat : option Z;
  userId : Z
}.

(** What [lib/jwt.ts] holds at module level once it has been loaded. *)
Record JwtModule : Type := mkJwtModule {
  JWT_SECRET : string;
  JWT_EXPIRATION : string
}.

Section TokenService.

(** The keyed digest of a signing input under a secret, as a number: the
    HMAC that the header of the signing input names. *)
Variable hmac : string -> string -> Z.

(** The [ms] package: a time span such as ["30d"] in milliseconds, or
    [None] ([undefined]) for a string it does not recognise. *)
Variable ms : string -> option Z.

(** The module-level constants of [lib/jwt.ts]. *)
Variable jwt : JwtModule.

(** ** Reference model of [jsonwebtoken]

    A token is [header.payload.signature].  The payload segment lists the
    claims [userId,iat,exp]; the signature segment is the digest of
    [header.payload] under the secret.  Times are whole seconds. *)

Definition jwt_header : string := "HS256".

Definition encode_payload (p : JWTPayload) : string :=
  dec (userId p) ++ "," ++ dec_opt (iat p) ++ "," ++ dec_opt (exp p).

Definition decode_payload (s : string) : option JWTPayload :=
  match split_on "," s with
  | [u; i; e] =>
      match undec u, undec_opt i, undec_opt e with
      | Some u', Some i', Some e' => Some (mkJWTPayload e' i' u')
      | _, _, _ => None
      end
  | _ => None
  end.

Definition signing_input (p : JWTPayload) : string :=
  jwt_header ++ "." ++ encode_payload p.

Definition signature_of (secret : string) (input : string) : string :=
  dec (hmac secret input).

(** [jwt.sign({ userId }, secret, { expiresIn })] at time [now]: [iat] is
    the current second, [exp] is [iat] plus the span; an unrecognised span
    throws. *)
Definition jwt_sign (uid : Z) (secret : string) (expiresIn : string)
    (now : Z) : Completion string :=
  match ms expiresIn with
  | None =>
      Throw (GenericError
        "expiresIn should be a number of seconds or string representing a timespan")
  | Some span =>
      let p := mkJWTPayload (Some (now + span / 1000)) (Some now) uid in
      Return (signing_input p ++ "." ++
              signature_of secret (signing_input p))
  end.

(** The algorithms [jwt.verify] accepts for a secret when the caller names
    none, as [verifyToken] does: the three HMACs. *)
Definition jwt_algorithms : list string := ["HS256"; "HS384"; "HS512"].

(** [jwt.verify(token, secret)] at time [now]: three segments, a header
    naming an accepted algorithm, a payload that decodes, a matching
    signature, and, when the token carries [exp], a clock strictly before
    it. *)
Definition jwt_verify (token : string) (secret : string) (now : Z)
    : Completion JWTPayload :=
  match split_on "." token with
  | [h; p; s] =>
      if negb (existsb (String.eqb h) jwt_algorithms) then
        Throw (JsonWebTokenError "invalid algorithm")
      else
        match decode_payload p with
        | None => Throw (JsonWebTokenError "invalid token")
        | Some payload =>
            if negb (String.eqb s (signature_of secret (h ++ "." ++ p)))
            then Throw (JsonWebTokenError "invalid signature")
            else
              match exp payload with
              | Some e =>
                  if e <=? now then Throw (TokenExpiredError e)
                  else Return payload
              | None => Return payload
              end
        end
  | _ => Throw (JsonWebTokenError "jwt malformed")
  end.

(** ** [lib/jwt.ts] *)

(** [generateToken(userId)], evaluated when the clock reads [now]. *)
Definition generateToken (now : Z) (uid : Z) : Completion string :=
  jwt_sign uid (JWT_SECRET jwt) (JWT_EXPIRATION jwt) now.

(** [verifyToken(token)]: whatever [jwt.verify] throws is caught and
    turned into [null]. *)
Definition verifyToken (now : Z) (token : string)
    : Completion (option JWTPayload) :=
  try_catch
    (match jwt_verify token (JWT_SECRET jwt) now with
     | Return p => Return (Some p)
     | Throw e => Throw e
     end)
    (fun _ => Return None).

End TokenService.

(* ================================================================== *)
(** * The database: tables and constraints of the initial migration *)
(* ================================================================== *)

(** The [CharacterCode] enum. *)
Inductive CharacterCode : Type := TRAECHAN | MASTER.

Definition CharacterCode_eqb (a b : CharacterCode) : bool :=
  match a, b with
  | TRAECHAN, TRAECHAN | MASTER, MASTER => true
  | _, _ => false
  end.

(** A row of [users]. *)
Module User.
Record t : Type := mk {
  id : Z;
  email : option string;
  name : option string;
  avatarUrl : option string;
  createdAt : Z;
  updatedAt : Z
}.
End User.

(** A row of [accounts] (the [AuthAccount] model). *)
Module AuthAccount.
Record t : Type := mk {
  id : Z;
  userId : Z;
  provider : string;
  providerAccountId : string;
  accessToken : option string;
  refreshToken : option string;
  expiresAt : option Z;
  tokenType : option string;
  scope : option string;
  idToken : option string;
  createdAt : Z;
  updatedAt : Z
}.
End AuthAccount.

(** A row of [characters], the master data. *)
Module Character.
Record t : Type := mk {
  characterCode : CharacterCode;
  name : string;
  description : string
}.
End Character.

(** A row of [user_characters]. *)
Module UserCharacter.
Record t : Type := mk {
  id : Z;
  userId : Z;
  characterCode : CharacterCode;
  nickName : string;
  level : Z;
  experience : Z;
  isActive : bool;
  createdAt : Z;
  updatedAt : Z
}.
End UserCharacter.

(** The store: the four tables and the three [SERIAL] sequences. *)
Record DB : Type := mkDB {
  users : list User.t;
  authAccounts : list AuthAccount.t;
  characters : list Character.t;
  userCharacters : list UserCharacter.t;
  users_id_seq : Z;
  accounts_id_seq : Z;
  user_characters_id_seq : Z
}.

(** What an asynchronous call runs against: the store and the clock (in
    seconds). *)
Record World : Type := mkWorld {
  db : DB;
  clock : Z
}.

(** ** Asynchronous computations *)

Definition M (A : Type) : Type := World -> Completion A * World.

Definition ret {A} (a : A) : M A := fun w => (Return a, w).

Definition throw {A} (e : Error) : M A := fun w => (Throw e, w).

Definition bind {A B} (m : M A) (k : A -> M B) : M B :=
  fun w =>
    match m w with
    | (Return a, w') => k a w'
    | (Throw e, w') => (Throw e, w')
    end.

Notation "'await' x <- m ; k" := (bind m (fun x => k))
  (at level 10, x name, m at level 100, k at level 200).

(** A synchronous call made from asynchronous code: it reads the clock and
    leaves the store alone. *)
Definition sync {A} (f : Z -> Completion A) : M A :=
  fun w => (f (clock w), w).

(** ** The Prisma client *)

(** [users_email_key]: whether the e-mail is already taken.  A [NULL]
    e-mail never collides. *)
Definition email_taken (e : option string) (d : DB) : bool :=
  match e with
  | None => false
  | Some s =>
      existsb (fun u => match User.email u with
                        | Some s' => String.eqb s' s
                        | None => false
                        end) (users d)
  end.

(** [accounts_provider_provider_account_id_key]. *)
Definition same_identity (provider providerAccountId : string)
    (a : AuthAccount.t) : bool :=
  String.eqb (AuthAccount.provider a) provider
  && String.eqb (AuthAccount.providerAccountId a) providerAccountId.

Definition identity_linked (provider providerAccountId : string) (d : DB)
    : bool :=
  existsb (same_identity provider providerAccountId) (authAccounts d).

(** The primary and foreign keys. *)
Definition user_exists (uid : Z) (d : DB) : bool :=
  existsb (fun u => User.id u =? uid) (users d).

Definition character_exists (c : CharacterCode) (d : DB) : bool :=
  existsb (fun ch => CharacterCode_eqb (Character.characterCode ch) c)
    (characters d).

(** [nextval] on a [SERIAL] sequence is never undone: an insert draws its
    id before any constraint is checked, so an insert that fails, or that
    is rolled back, has still consumed it. *)
Definition consume_users_id (w : World) : World :=
  mkWorld
    (mkDB (users (db w)) (authAccounts (db w)) (characters (db w))
       (userCharacters (db w)) (users_id_seq (db w) + 1)
       (accounts_id_seq (db w)) (user_characters_id_seq (db w)))
    (clock w).

Definition consume_accounts_id (w : World) : World :=
  mkWorld
    (mkDB (users (db w)) (authAccounts (db w)) (characters (db w))
       (userCharacters (db w)) (users_id_seq (db w))
       (accounts_id_seq (db w) + 1) (user_characters_id_seq (db w)))
    (clock w).

Definition consume_user_characters_id (w : World) : World :=
  mkWorld
    (mkDB (users (db w)) (authAccounts (db w)) (characters (db w))
       (userCharacters (db w)) (users_id_seq (db w))
       (accounts_id_seq (db w)) (user_characters_id_seq (db w) + 1))
    (clock w).

(** [user.create({ data: { avatarUrl, email, name } })]. *)
Definition user_create (avatarUrl email name : option string) : M User.t :=
  fun w =>
    let d := db w in
    if user_exists (users_id_seq d) d then
      (Throw (PrismaClientKnownRequestError "P2002" "id"),
       consume_users_id w)
    else if email_taken email d then
      (Throw (PrismaClientKnownRequestError "P2002" "email"),
       consume_users_id w)
    else
      let u := User.mk (users_id_seq d) email name avatarUrl
                 (clock w) (clock w) in
      (Return u,
       mkWorld
         (mkDB (users d ++ [u]) (authAccounts d) (characters d)
            (userCharacters d) (users_id_seq d + 1) (accounts_id_seq d)
            (user_characters_id_seq d))
         (clock w)).

(** [authAccount.create({ data: { provider, providerAccountId, userId } })]. *)
Definition authAccount_create (provider providerAccountId : string)
    (userId : Z) : M AuthAccount.t :=
  fun w =>
    let d := db w in
    if existsb (fun a => AuthAccount.id a =? accounts_id_seq d)
         (authAccounts d) then
      (Throw (PrismaClientKnownRequestError "P2002" "id"),
       consume_accounts_id w)
    else if identity_linked provider providerAccountId d then
      (Throw (PrismaClientKnownRequestError "P2002"
                "provider,provider_account_id"), consume_accounts_id w)
    else if negb (user_exists userId d) then
      (Throw (PrismaClientKnownRequestError "P2003" "accounts_user_id_fkey"),
       consume_accounts_id w)
    else
      let a := AuthAccount.mk (accounts_id_seq d) userId provider
                 providerAccountId None None None None None None
                 (clock w) (clock w) in
      (Return a,
       mkWorld
         (mkDB (users d) (authAccounts d ++ [a]) (characters d)
            (userCharacters d) (users_id_seq d) (accounts_id_seq d + 1)
            (user_characters_id_seq d))
         (clock w)).

(** [userCharacter.create({ data: { characterCode, isActive, nickName,
    userId } })]; [level] and [experience] take their column defaults. *)
Definition userCharacter_create (characterCode : CharacterCode)
    (isActive : bool) (nickName : string) (userId : Z) : M UserCharacter.t :=
  fun w =>
    let d := db w in
    if existsb (fun c => UserCharacter.id c =? user_characters_id_seq d)
         (userCharacters d) then
      (Throw (PrismaClientKnownRequestError "P2002" "id"),
       consume_user_characters_id w)
    else if negb (user_exists userId d) then
      (Throw (PrismaClientKnownRequestError "P2003"
                "user_characters_user_id_fkey"),
       consume_user_characters_id w)
    else if negb (character_exists characterCode d) then
      (Throw (PrismaClientKnownRequestError "P2003"
                "user_characters_character_code_fkey"),
       consume_user_characters_id w)
    else
      let c := UserCharacter.mk (user_characters_id_seq d) userId
                 characterCode nickName 1 0 isActive (clock w) (clock w) in
      (Return c,
       mkWorld
         (mkDB (users d) (authAccounts d) (characters d)
            (userCharacters d ++ [c]) (users_id_seq d) (accounts_id_seq d)
            (user_characters_id_seq d + 1))
         (clock w)).

(** The world after a rollback: the rows as they were [before], the
    sequences where the [failed] attempt left them. *)
Definition rolled_back (before failed : World) : World :=
  mkWorld
    (mkDB (users (db before)) (authAccounts (db before))
       (characters (db before)) (userCharacters (db before))
       (users_id_seq (db failed)) (accounts_id_seq (db failed))
       (user_characters_id_seq (db failed)))
    (clock before).

(** [prisma.$transaction(async (tx) => ...)]: the callback's writes are
    committed when it returns; when it throws, its rows are discarded, and
    the ids it drew stay drawn. *)
Definition transaction {A} (callback : M A) : M A :=
  fun w =>
    match callback w with
    | (Return a, w') => (Return a, w')
    | (Throw e, w') => (Throw e, rolled_back w w')
    end.

(* ================================================================== *)
(** * The repositories: [repository/mysql] *)
(* ================================================================== *)

(** [AuthAccountWithUser = AuthAccount & { user: User }]. *)
Record AuthAccountWithUser : Type := mkAuthAccountWithUser {
  account : AuthAccount.t;
  user : User.t
}.

(** [CreateUserRegistrationInput]. *)
Module RegistrationInput.
Record AuthAccountData : Type := mkAuthAccount {
  provider : string;
  providerAccountId : string
}.
Record UserData : Type := mkUser {
  avatarUrl : option string;
  email : option string;
  name : option string
}.
Record UserCharacterData : Type := mkUserCharacter {
  characterCode : CharacterCode;
  isActive : option bool;
  nickName : string
}.
Record t : Type := mk {
  authAccount : AuthAccountData;
  user : UserData;
  userCharacter : UserCharacterData
}.
End RegistrationInput.

(** The interfaces the service receives. *)
Record AuthAccountRepository : Type := {
  findByProvider : string -> string -> M (option AuthAccountWithUser)
}.

Record UserRegistrationRepository : Type := {
  createUserWithAuthAccountAndUserCharacterTx :
    RegistrationInput.t -> M User.t
}.

(** [PrismaAuthAccountRepository.findByProvider]: [findUnique] on the
    compound key, with the owning user included.  The relation is required,
    so an account whose user is missing is a query error. *)
Definition Prisma_findByProvider (provider providerAccountId : string)
    : M (option AuthAccountWithUser) :=
  fun w =>
    match find (same_identity provider providerAccountId)
            (authAccounts (db w)) with
    | None => (Return None, w)
    | Some a =>
        match find (fun u => User.id u =? AuthAccount.userId a)
                (users (db w)) with
        | Some u => (Return (Some (mkAuthAccountWithUser a u)), w)
        | None =>
            (Throw (GenericError
               "Inconsistent query result: Field user is required"), w)
        end
    end.

Definition PrismaAuthAccountRepository : AuthAccountRepository :=
  {| findByProvider := Prisma_findByProvider |}.

(** [isActive ?? false]. *)
Definition nullish_false (b : option bool) : bool :=
  match b with
  | Some v => v
  | None => false
  end.

(** [PrismaUserRegistrationRepository.createUserWithAuthAndCharacter]: the
    three inserts inside one [$transaction]. *)
Definition createUserWithAuthAndCharacter (data : RegistrationInput.t)
    : M User.t :=
  transaction
    (await user <- user_create
                     (RegistrationInput.avatarUrl (RegistrationInput.user data))
                     (RegistrationInput.email (RegistrationInput.user data))
                     (RegistrationInput.name (RegistrationInput.user data));
     await _ <- authAccount_create
                  (RegistrationInput.provider
                     (RegistrationInput.authAccount data))
                  (RegistrationInput.providerAccountId
                     (RegistrationInput.authAccount data))
                  (User.id user);
     await _ <- userCharacter_create
                  (RegistrationInput.characterCode
                     (RegistrationInput.userCharacter data))
                  (nullish_false
                     (RegistrationInput.isActive
                        (RegistrationInput.userCharacter data)))
                  (RegistrationInput.nickName
                     (RegistrationInput.userCharacter data))
                  (User.id user);
     ret user).

(** The repository [index.ts] builds; the service knows the method as
    [createUserWithAuthAccountAndUserCharacterTx]. *)
Definition PrismaUserRegistrationRepository : UserRegistrationRepository :=
  {| createUserWithAuthAccountAndUserCharacterTx :=
       createUserWithAuthAndCharacter |}.

(** [PrismaUserRepository.findById]. *)
Definition findById (uid : Z) : M (option User.t) :=
  fun w => (Return (find (fun u => User.id u =? uid) (users (db w))), w).

(** The same repository when another request's registration commits while
    this request waits for its own to start: requests are handled
    concurrently, and each [await] is a point where others run. *)
Definition afterConcurrentRegistration (other : RegistrationInput.t)
    (repo : UserRegistrationRepository) : UserRegistrationRepository :=
  {| createUserWithAuthAccountAndUserCharacterTx := fun data w =>
       let '(_, w') :=
         createUserWithAuthAccountAndUserCharacterTx repo other w in
       createUserWithAuthAccountAndUserCharacterTx repo data w' |}.

(* ================================================================== *)
(** * The Google client: [client/google-auth.ts] *)
(* ================================================================== *)

Module GoogleUserInfo.
Record t : Type := mk {
  email : string;
  id : string;
  name : string;
  picture : option string
}.
End GoogleUserInfo.

(** [getUserInfo(code)] exchanges the code with Google; the service only
    sees the profile it resolves to, or the error it throws.  The exchange
    talks to Google, never to the store. *)
Record GoogleOAuthClient : Type := {
  getUserInfo : string -> Completion GoogleUserInfo.t
}.

(* ================================================================== *)
(** * The service: [service/auth-service.ts] *)
(* ================================================================== *)

Record AuthenticateWithGoogleResult : Type := mkResult {
  isNewUser : bool;
  jwtToken : string;
  result_user : User.t
}.

(** The repositories handed to [authenticateWithGoogle]. *)
Record Repositories : Type := {
  authAccountRepository : AuthAccountRepository;
  userRegistrationRepository : UserRegistrationRepository
}.

(** The starter character's nickname, [トレちゃん]. *)
Definition TRAECHAN_NICKNAME : string := "トレちゃん".

Section AuthService.

Variable hmac : string -> string -> Z.
Variable ms : string -> option Z.
Variable jwt : JwtModule.

(** The input the service builds for a first sign-in. *)
Definition registration_of (googleUser : GoogleUserInfo.t)
    : RegistrationInput.t :=
  RegistrationInput.mk
    (RegistrationInput.mkAuthAccount "google" (GoogleUserInfo.id googleUser))
    (RegistrationInput.mkUser
       (GoogleUserInfo.picture googleUser)
       (Some (GoogleUserInfo.email googleUser))
       (Some (GoogleUserInfo.name googleUser)))
    (RegistrationInput.mkUserCharacter TRAECHAN (Some true)
       TRAECHAN_NICKNAME).

(** [authenticateWithGoogle(code, repository, googleAuthClient)]. *)
Definition authenticateWithGoogle (code : string)
    (repository : Repositories) (googleAuthClient : GoogleOAuthClient)
    : M AuthenticateWithGoogleResult :=
  await googleUser <- sync (fun _ => getUserInfo googleAuthClient code);
  await existingAccount <-
    findByProvider (authAccountRepository repository) "google"
      (GoogleUserInfo.id googleUser);
  await found <-
    match existingAccount with
    | Some acc => ret (user acc, false)
    | None =>
        await u <-
          createUserWithAuthAccountAndUserCharacterTx
            (userRegistrationRepository repository)
            (registration_of googleUser);
        ret (u, true)
    end;
  await jwtToken <- sync (fun now => generateToken hmac ms jwt now
                                       (User.id (fst found)));
  ret (mkResult (snd found) jwtToken (fst found)).

(** [getUserById(userId, userRepository)]. *)
Definition getUserById (uid : Z) : M (option User.t) := findById uid.

(* ================================================================ *)
(** * The session guard: [middleware/auth.ts] *)
(* ================================================================ *)

(** [ErrorResponse]. *)
Record ErrorResponse : Type := mkErrorResponse {
  error : string;
  status_code : Z
}.

(** The part of the request the guard reads and writes. *)
Record AuthRequest : Type := mkAuthRequest {
  authorization : option string;
  req_userId : option Z
}.

(** What the guard leaves behind: the request as it now is, the response
    it sent (if it sent one) and the requests it handed to [next()]. *)
Record Exchange : Type := mkExchange {
  req : AuthRequest;
  res : option ErrorResponse;
  passed_on : list AuthRequest
}.

(** [res.status(code).json({ error, status_code })]. *)
Definition respond (code : Z) (message : string) (x : Exchange) : Exchange :=
  mkExchange (req x) (Some (mkErrorResponse message code)) (passed_on x).

(** [authMiddleware(req, res, next)] when the clock reads [now].  [next]
    tells whether the rest of the chain throws synchronously. *)
Definition authMiddleware (now : Z) (next : AuthRequest -> Completion unit)
    (r : AuthRequest) : Exchange :=
  let x := mkExchange r None [] in
  let authHeader := authorization r in
  if negb (truthy authHeader)
     || negb (startsWith (default "" authHeader) "Bearer ")
  then respond 401 "No token provided" x
  else
    let token := substring_from 7 (default "" authHeader) in
    match verifyToken hmac jwt now token with
    | Throw _ => respond 500 "Authentication failed" x
    | Return None => respond 401 "Invalid or expired token" x
    | Return (Some payload) =>
        let r' := mkAuthRequest (authorization r) (Some (userId payload)) in
        let x' := mkExchange r' None [r'] in
        match next r' with
        | Return _ => x'
        | Throw _ => respond 500 "Authentication failed" x'
        end
    end.

End AuthService.

(* ================================================================== *)
(** * Start-up: the environment checks of [lib/jwt.ts] and [index.ts] *)
(* ================================================================== *)


(** [if (!process.env.NAME) throw new Error('NAME environment variable is
    required')], yielding the value otherwise. *)
Definition required (env : gmap string string) (name : string)
    : Completion string :=
  if truthy (env !! name) then Return (default "" (env !! name))
  else Throw (GenericError (name ++ " environment variable is required")).




(* ================================================================== *)
(** * The other repository methods *)
(* ================================================================== *)

Definition email_is (e : string) (u : User.t) : bool :=
  match User.email u with
  | Some e' => String.eqb e' e
  | None => false
  end.

(** [PrismaUserRepository.findByEmail]. *)
Definition findByEmail (e : string) : M (option User.t) :=
  fun w => (Return (find (email_is e) (users (db w))), w).

(** [CreateUserInput]. *)
Module CreateUserInput.
Record t : Type := mk {
  avatarUrl : option string;
  email : option string;
  name : option string
}.
End CreateUserInput.

(** [PrismaUserRepository.create]. *)
Definition PrismaUserRepository_create (data : CreateUserInput.t) : M User.t :=
  user_create (CreateUserInput.avatarUrl data) (CreateUserInput.email data)
    (CreateUserInput.name data).

(** [CreateAccountInput]. *)
Module CreateAccountInput.
Record t : Type := mk {
  accessToken : option string;
  expiresAt : option Z;
  idToken : option string;
  provider : string;
  providerAccountId : string;
  refreshToken : option string;
  scope : option string;
  tokenType : option string;
  userId : Z
}.
End CreateAccountInput.

(** [PrismaAuthAccountRepository.create]: one insert into [accounts],
    under the same constraints as the insert of the registration. *)
Definition PrismaAuthAccountRepository_create (data : CreateAccountInput.t)
    : M AuthAccount.t :=
  fun w =>
    let d := db w in
    if existsb (fun a => AuthAccount.id a =? accounts_id_seq d)
         (authAccounts d) then
      (Throw (PrismaClientKnownRequestError "P2002" "id"),
       consume_accounts_id w)
    else if identity_linked (CreateAccountInput.provider data)
              (CreateAccountInput.providerAccountId data) d then
      (Throw (PrismaClientKnownRequestError "P2002"
                "provider,provider_account_id"), consume_accounts_id w)
    else if negb (user_exists (CreateAccountInput.userId data) d) then
      (Throw (PrismaClientKnownRequestError "P2003" "accounts_user_id_fkey"),
       consume_accounts_id w)
    else
      let a := AuthAccount.mk (accounts_id_seq d)
                 (CreateAccountInput.userId data)
                 (CreateAccountInput.provider data)
                 (CreateAccountInput.providerAccountId data)
                 (CreateAccountInput.accessToken data)
                 (CreateAccountInput.refreshToken data)
                 (CreateAccountInput.expiresAt data)
                 (CreateAccountInput.tokenType data)
                 (CreateAccountInput.scope data)
                 (CreateAccountInput.idToken data)
                 (clock w) (clock w) in
      (Return a,
       mkWorld
         (mkDB (users d) (authAccounts d ++ [a]) (characters d)
            (userCharacters d) (users_id_seq d) (accounts_id_seq d + 1)
            (user_characters_id_seq d))
         (clock w)).

(** A user's character with its master row ([include: { character: true }]). *)
Record UserCharacterWithCharacter : Type := mkUserCharacterWithCharacter {
  owned : UserCharacter.t;
  character : Character.t
}.

(** The join behind [include]: the relation is required, so a missing
    master row is a query error. *)
Definition include_character (d : DB) (c : UserCharacter.t)
    : Completion UserCharacterWithCharacter :=
  match find (fun ch => CharacterCode_eqb (Character.characterCode ch)
                          (UserCharacter.characterCode c))
          (characters d) with
  | Some ch => Return (mkUserCharacterWithCharacter c ch)
  | None =>
      Throw (GenericError
               "Inconsistent query result: Field character is required")
  end.

Fixpoint include_characters (d : DB) (l : list UserCharacter.t)
    : Completion (list UserCharacterWithCharacter) :=
  match l with
  | [] => Return []
  | c :: l' =>
      match include_character d c with
      | Throw e => Throw e
      | Return x =>
          match include_characters d l' with
          | Throw e => Throw e
          | Return xs => Return (x :: xs)
          end
      end
  end.

(** [CreateUserCharacterInput]. *)
Module CreateUserCharacterInput.
Record t : Type := mk {
  characterCode : CharacterCode;
  isActive : option bool;
  nickName : string;
  userId : Z
}.
End CreateUserCharacterInput.

(** [PrismaUserCharacterRepository.create]. *)
Definition PrismaUserCharacterRepository_create
    (data : CreateUserCharacterInput.t) : M UserCharacterWithCharacter :=
  await c <- userCharacter_create
               (CreateUserCharacterInput.characterCode data)
               (nullish_false (CreateUserCharacterInput.isActive data))
               (CreateUserCharacterInput.nickName data)
               (CreateUserCharacterInput.userId data);
  fun w => (include_character (db w) c, w).

(** The filter of [findActiveByUserId]: [where: { isActive: true, userId }]. *)
Definition active_of (uid : Z) (c : UserCharacter.t) : bool :=
  UserCharacter.isActive c && (UserCharacter.userId c =? uid).

(** [PrismaUserCharacterRepository.findActiveByUserId]: [findFirst]. *)
Definition findActiveByUserId (uid : Z)
    : M (option UserCharacterWithCharacter) :=
  fun w =>
    match find (active_of uid) (userCharacters (db w)) with
    | None => (Return None, w)
    | Some c =>
        match include_character (db w) c with
        | Return x => (Return (Some x), w)
        | Throw e => (Throw e, w)
        end
    end.

(** [orderBy: { createdAt: 'asc' }]. *)
Definition created_le (a b : UserCharacter.t) : Prop :=
  UserCharacter.createdAt a <= UserCharacter.createdAt b.

#[global] Instance created_le_dec : RelDecision created_le.
Proof. intros a b. unfold created_le. apply Z_le_dec. Defined.

(** [PrismaUserCharacterRepository.findByUserId]: the user's characters,
    oldest first. *)
Definition findByUserId (uid : Z) : M (list UserCharacterWithCharacter) :=
  fun w =>
    (include_characters (db w)
       (merge_sort created_le
          (List.filter (fun c => UserCharacter.userId c =? uid)
             (userCharacters (db w)))),
     w).

(* ================================================================== *)
(** * The seed: [prisma/seed.ts] *)
(* ================================================================== *)

Definition has_code (code : CharacterCode) (ch : Character.t) : bool :=
  CharacterCode_eqb (Character.characterCode ch) code.

(** [character.upsert({ create, update: {}, where: { characterCode } })]:
    the row is created when absent and left as it is when present. *)
Definition character_upsert (code : CharacterCode) (name description : string)
    : M Character.t :=
  fun w =>
    let d := db w in
    match find (has_code code) (characters d) with
    | Some ch => (Return ch, w)
    | None =>
        let ch := Character.mk code name description in
        (Return ch,
         mkWorld
           (mkDB (users d) (authAccounts d) (characters d ++ [ch])
              (userCharacters d) (users_id_seq d) (accounts_id_seq d)
              (user_characters_id_seq d))
           (clock w))
    end.

(** [main()] of the seed. *)
Definition seed_main : M unit :=
  await _ <- character_upsert TRAECHAN "トレちゃん"
               "目標達成をサポートするあなたの相棒";
  await _ <- character_upsert MASTER "マスター" "あなたの成長を見守る師匠";
  ret tt.

(* ================================================================== *)
(** * The controllers and the router *)
(* ================================================================== *)

(** [AuthMeResponse], also the shape of [user] in the callback's answer. *)
Module AuthMeResponse.
Record t : Type := mk {
  avatar_url : option string;
  created_at : string;
  email : option string;
  id : Z;
  name : option string
}.
End AuthMeResponse.

(** [AuthGoogleCallbackResponse]. *)
Module AuthGoogleCallbackResponse.
Record t : Type := mk {
  is_new_user : bool;
  token : string;
  user : AuthMeResponse.t
}.
End AuthGoogleCallbackResponse.

(** What [res.status(...).json(...)] sends. *)
Inductive ResponseBody : Type :=
  | ErrorBody (e : ErrorResponse)
  | AuthMeBody (r : AuthMeResponse.t)
  | CallbackBody (r : AuthGoogleCallbackResponse.t).

Record HttpResponse : Type := mkHttpResponse {
  status : Z;
  body : ResponseBody
}.

(** A value of [req.query]: a string, or an array or nested object. *)
Inductive QueryValue : Type :=
  | QString (s : string)
  | QArray (l : list string)
  | QObject.

(** [authGoogleCallbackRequestSchema.parse(req.query)]: [code] must be a
    string of at least one character; [None] stands for the [ZodError]. *)
Definition parse_callback_request (code : option QueryValue)
    : option string :=
  match code with
  | Some (QString s) => if String.eqb s "" then None else Some s
  | _ => None
  end.

(** What Prisma throws for [findUnique({ where: { id: undefined } })]. *)
Definition missing_id_error : Error :=
  GenericError "Argument where needs at least one of id or email arguments".

Section Controllers.

Variable hmac : string -> string -> Z.
Variable ms : string -> option Z.
Variable jwt : JwtModule.

(** [Date.prototype.toISOString] on a stored timestamp. *)
Variable toISOString : Z -> string.

(** The message Prisma gives a known request error. *)
Variable prisma_message : string -> string -> string.

(** [error.message]. *)
Definition error_message (e : Error) : string :=
  match e with
  | JsonWebTokenError m => m
  | TokenExpiredError _ => "jwt expired"
  | PrismaClientKnownRequestError code target => prisma_message code target
  | GenericError m => m
  end.

(** The user object both controllers answer with. *)
Definition summary_of (u : User.t) : AuthMeResponse.t :=
  AuthMeResponse.mk (User.avatarUrl u) (toISOString (User.createdAt u))
    (User.email u) (User.id u) (User.name u).

Definition error_response (code : Z) (message : string) : HttpResponse :=
  mkHttpResponse code (ErrorBody (mkErrorResponse message code)).

(** [AuthMeController.execute(req, res)]: [req.userId!] goes to the
    repository unchecked. *)
Definition AuthMeController_execute (r : AuthRequest) : M HttpResponse :=
  fun w =>
    match
      match req_userId r with
      | Some uid => getUserById uid w
      | None => (Throw missing_id_error, w)
      end
    with
    | (Return None, w') => (Return (error_response 404 "User not found"), w')
    | (Return (Some u), w') =>
        (Return (mkHttpResponse 200 (AuthMeBody (summary_of u))), w')
    | (Throw e, w') => (Return (error_response 500 (error_message e)), w')
    end.

(** [AuthGoogleCallbackController.execute(req, res)]. *)
Definition AuthGoogleCallbackController_execute (repository : Repositories)
    (googleOAuthClient : GoogleOAuthClient) (code : option QueryValue)
    : M HttpResponse :=
  fun w =>
    match parse_callback_request code with
    | None => (Return (error_response 400 "Invalid request parameters"), w)
    | Some c =>
        match authenticateWithGoogle hmac ms jwt c repository
                googleOAuthClient w with
        | (Return result, w') =>
            (Return
               (mkHttpResponse 200
                  (CallbackBody
                     (AuthGoogleCallbackResponse.mk (isNewUser result)
                        (jwtToken result)
                        (summary_of (result_user result))))),
             w')
        | (Throw e, w') =>
            (Return (error_response 500 (error_message e)), w')
        end
    end.

(** [router.get('/me', authMiddleware, ...)]: the guard, then the
    controller on the request the guard handed on.  [None] is a request
    left without an answer. *)
Definition route_me (r : AuthRequest) : M (option HttpResponse) :=
  fun w =>
    let x := authMiddleware hmac jwt (clock w) (fun _ => Return tt) r in
    match passed_on x with
    | r' :: _ =>
        match AuthMeController_execute r' w with
        | (Return h, w') => (Return (Some h), w')
        | (Throw e, w') => (Throw e, w')
        end
    | [] =>
        (Return
           (option_map
              (fun e => mkHttpResponse (status_code e) (ErrorBody e))
              (res x)),
         w)
    end.

(** [router.get('/google/callback', ...)] with the repositories and the
    client [index.ts] builds. *)
Definition route_google_callback (googleOAuthClient : GoogleOAuthClient)
    (code : option QueryValue) : M HttpResponse :=
  AuthGoogleCallbackController_execute
    {| authAccountRepository := PrismaAuthAccountRepository;
       userRegistrationRepository := PrismaUserRegistrationRepository |}
    googleOAuthClient code.

(* ================================================================== *)
(** * The service before the registration transaction *)
(* ================================================================== *)

(** [authenticateWithGoogle] as first written, over the three Prisma
    repositories: the user, the account and the character are created by
    three separate calls. *)
Definition authenticateWithGoogle_separate (code : string)
    (googleOAuthClient : GoogleOAuthClient)
    : M AuthenticateWithGoogleResult :=
  await googleUser <- sync (fun _ => getUserInfo googleOAuthClient code);
  await existingAccount <-
    Prisma_findByProvider "google" (GoogleUserInfo.id googleUser);
  await found <-
    match existingAccount with
    | Some acc => ret (user acc, false)
    | None =>
        await u <-
          PrismaUserRepository_create
            (CreateUserInput.mk (GoogleUserInfo.picture googleUser)
               (Some (GoogleUserInfo.email googleUser))
               (Some (GoogleUserInfo.name googleUser)));
        await _ <-
          PrismaAuthAccountRepository_create
            (CreateAccountInput.mk None None None "google"
               (GoogleUserInfo.id googleUser) None None None (User.id u));
        await _ <-
          PrismaUserCharacterRepository_create
            (CreateUserCharacterInput.mk TRAECHAN (Some true)
               TRAECHAN_NICKNAME (User.id u));
        ret (u, true)
    end;
  await token <- sync (fun now => generateToken hmac ms jwt now
                                    (User.id (fst found)));
  ret (mkResult (snd found) token (fst found)).

End Controllers.

(* ================================================================== *)
(** * Vocabulary of the statements *)
(* ================================================================== *)




(** Every stored id is behind its sequence and every foreign key to
    [users] points behind the users sequence. *)
Definition db_wf (d : DB) : bool :=
  forallb (fun u => User.id u <? users_id_seq d) (users d)
  && forallb (fun a => (AuthAccount.id a <? accounts_id_seq d)
                       && (AuthAccount.userId a <? users_id_seq d))
       (authAccounts d)
  && forallb (fun c => (UserCharacter.id c <? user_characters_id_seq d)
                       && (UserCharacter.userId c <? users_id_seq d))
       (userCharacters d).

(** No two accounts link the same external identity. *)
Definition identities_unique (d : DB) : Prop :=
  NoDup (map (fun a => (AuthAccount.provider a,
                        AuthAccount.providerAccountId a))
           (authAccounts d)).

(** The three rows a registration writes, and the world it leaves. *)
Definition new_user (data : RegistrationInput.t) (w : World) : User.t :=
  User.mk (users_id_seq (db w))
    (RegistrationInput.email (RegistrationInput.user data))
    (RegistrationInput.name (RegistrationInput.user data))
    (RegistrationInput.avatarUrl (RegistrationInput.user data))
    (clock w) (clock w).

Definition new_account (data : RegistrationInput.t) (w : World)
    : AuthAccount.t :=
  AuthAccount.mk (accounts_id_seq (db w)) (users_id_seq (db w))
    (RegistrationInput.provider (RegistrationInput.authAccount data))
    (RegistrationInput.providerAccountId (RegistrationInput.authAccount data))
    None None None None None None (clock w) (clock w).

Definition new_character (data : RegistrationInput.t) (w : World)
    : UserCharacter.t :=
  UserCharacter.mk (user_characters_id_seq (db w)) (users_id_seq (db w))
    (RegistrationInput.characterCode (RegistrationInput.userCharacter data))
    (RegistrationInput.nickName (RegistrationInput.userCharacter data))
    1 0
    (nullish_false
       (RegistrationInput.isActive (RegistrationInput.userCharacter data)))
    (clock w) (clock w).

Definition registered (data : RegistrationInput.t) (w : World) : World :=
  mkWorld
    (mkDB (users (db w) ++ [new_user data w])
       (authAccounts (db w) ++ [new_account data w])
       (characters (db w))
       (userCharacters (db w) ++ [new_character data w])
       (users_id_seq (db w) + 1) (accounts_id_seq (db w) + 1)
       (user_characters_id_seq (db w) + 1))
    (clock w).

(** No constraint of the schema stands in the way of a registration. *)
Definition can_register (data : RegistrationInput.t) (d : DB) : bool :=
  negb (user_exists (users_id_seq d) d)
  && negb (email_taken
             (RegistrationInput.email (RegistrationInput.user data)) d)
  && negb (existsb (fun a => AuthAccount.id a =? accounts_id_seq d)
             (authAccounts d))
  && negb (identity_linked
             (RegistrationInput.provider (RegistrationInput.authAccount data))
             (RegistrationInput.providerAccountId
                (RegistrationInput.authAccount data)) d)
  && negb (existsb (fun c => UserCharacter.id c =? user_characters_id_seq d)
             (userCharacters d))
  && character_exists
       (RegistrationInput.characterCode
          (RegistrationInput.userCharacter data)) d.

(** The tail of [authenticateWithGoogle]: sign a token for the user and
    answer. *)
Definition finish (hmac : string -> string -> Z) (ms : string -> option Z)
    (jwt : JwtModule) (u : User.t) (isNew : bool)
    : M AuthenticateWithGoogleResult :=
  fun w =>
    match generateToken hmac ms jwt (clock w) (User.id u) with
    | Return t => (Return (mkResult isNew t u), w)
    | Throw e => (Throw e, w)
    end.

(* ================================================================== *)
(** * Fixtures: a seeded store, a test double for Google, test settings *)
(* ================================================================== *)

(** The store after [seed.ts]: the two master characters, nothing else. *)
Definition seeded_db : DB :=
  mkDB [] []
    [Character.mk TRAECHAN "トレちゃん" "目標達成をサポートするあなたの相棒";
     Character.mk MASTER "マスター" "あなたの成長を見守る師匠"]
    [] 1 1 1.

Definition seeded_world : World := mkWorld seeded_db 1700000000.

(** A seeded store where another user already holds the address of
    [alice]'s Google profile. *)
Definition email_taken_world : World :=
  mkWorld
    (mkDB
       [User.mk 1 (Some "u@example.com") (Some "Bob") None
          1690000000 1690000000]
       [] (characters seeded_db) [] 2 1 1)
    1700000000.


(** A Google client that knows a fixed table of codes. *)
Definition stubGoogle (table : list (string * GoogleUserInfo.t))
    : GoogleOAuthClient :=
  {| getUserInfo := fun code =>
       match find (fun e => String.eqb (fst e) code) table with
       | Some e => Return (snd e)
       | None => Throw (GenericError "invalid_grant")
       end |}.

Definition alice : GoogleUserInfo.t :=
  GoogleUserInfo.mk "u@example.com" "abc123" "Alice"
    (Some "https://example.com/avatar.jpg").

(** The same Google account seen with another primary address. *)
Definition alice_renamed : GoogleUserInfo.t :=
  GoogleUserInfo.mk "alice@example.com" "abc123" "Alice" None.

Definition test_google : GoogleOAuthClient :=
  stubGoogle [("code-1", alice); ("code-2", alice)].

Definition prisma_repositories : Repositories :=
  {| authAccountRepository := PrismaAuthAccountRepository;
     userRegistrationRepository := PrismaUserRegistrationRepository |}.

(** The repositories of a request that loses the race: between its
    resolver's answer and its own registration, another request registers
    [winner]. *)
Definition racing_repositories (winner : GoogleUserInfo.t) : Repositories :=
  {| authAccountRepository := PrismaAuthAccountRepository;
     userRegistrationRepository :=
       afterConcurrentRegistration
         (registration_of winner) PrismaUserRegistrationRepository |}.

(** A toy digest (a polynomial checksum of key and message) and the one
    span the tests use. *)
Fixpoint checksum (s : string) (acc : Z) : Z :=
  match s with
  | EmptyString => acc
  | String c s' =>
      checksum s' ((acc * 31 + Z.of_nat (nat_of_ascii c)) mod 1000003)
  end.

Definition test_hmac (key message : string) : Z :=
  checksum (key ++ "/" ++ message) 7.

Definition test_ms (s : string) : option Z :=
  if String.eqb s "30d" then Some 2592000000 else None.

Definition test_jwt : JwtModule := mkJwtModule "s3cret" "30d".

(** A token issued at 1700000000 for user 42, and two spoiled ones. *)
Definition issued_token : string := "HS256.42,1700000000,1702592000.883026".

Definition tampered_token : string := "HS256.43,1700000000,1702592000.883026".

Definition malformed_token : string := "not-a-token".





(* ================================================================== *)
(** * Facts about strings and decimal numbers *)
(* ================================================================== *)

Lemma split_on_absent (sep : ascii) (s : string) :
  occurs sep s = false -> split_on sep s = [s].
Proof.
  induction s as [|c s IH]; simpl; [reflexivity|].
  intros H. apply orb_false_iff in H as [Hc Hs].
  rewrite Hc, (IH Hs). reflexivity.
Qed.

Lemma split_on_app (sep : ascii) (a b : string) :
  occurs sep a = false ->
  split_on sep (a ++ String sep b) = a :: split_on sep b.
Proof.
  induction a as [|c a IH]; simpl.
  - intros _. rewrite Ascii.eqb_refl. reflexivity.
  - intros H. apply orb_false_iff in H as [Hc Ha].
    rewrite Hc, (IH Ha). reflexivity.
Qed.

Lemma append_assoc (a b c : string) : (a ++ b) ++ c = a ++ (b ++ c).
Proof.
  induction a as [|x a IH]; [reflexivity|].
  change (String x ((a ++ b) ++ c) = String x (a ++ b ++ c)).
  f_equal. exact IH.
Qed.

Lemma occurs_app (c : ascii) (a b : string) :
  occurs c (a ++ b) = occurs c a || occurs c b.
Proof.
  induction a as [|x a IH]; simpl; [reflexivity|].
  rewrite IH, orb_assoc. reflexivity.
Qed.

Lemma occurs_string_of_uint (c : ascii) (d : uint) :
  not_numeric c = true -> occurs c (NilEmpty.string_of_uint d) = false.
Proof.
  unfold not_numeric. rewrite negb_true_iff. simpl.
  intros H. repeat (apply orb_false_iff in H as [? H]).
  induction d; simpl; rewrite ?IHd; auto using orb_false_r;
    match goal with E : ?t = false |- (?t || false)%bool = false => rewrite E end;
    reflexivity.
Qed.

Lemma occurs_dec (c : ascii) (z : Z) :
  not_numeric c = true -> occurs c (dec z) = false.
Proof.
  intros H. unfold dec.
  assert (Hu : forall d, occurs c (NilZero.string_of_uint d) = false).
  { intros d. destruct d; try apply (occurs_string_of_uint c _ H).
    simpl. unfold not_numeric in H. rewrite negb_true_iff in H. simpl in H.
    apply orb_false_iff in H as [H _]. rewrite H. reflexivity. }
  destruct (Z.to_int z) as [d|d]; simpl; [apply Hu|].
  rewrite Hu, orb_false_r.
  unfold not_numeric in H. rewrite negb_true_iff in H. simpl in H.
  repeat (apply orb_false_iff in H as [? H]). assumption.
Qed.

Lemma occurs_dec_opt (c : ascii) (o : option Z) :
  not_numeric c = true -> occurs c (dec_opt o) = false.
Proof. destruct o; simpl; [apply occurs_dec|reflexivity]. Qed.

Lemma to_uint_nonnil (p : positive) : Pos.to_uint p <> Nil.
Proof. apply Unsigned.to_uint_nonnil. Qed.

Lemma undec_dec (z : Z) : undec (dec z) = Some z.
Proof.
  unfold undec, dec.
  rewrite NilZero.isi.
  - simpl. rewrite DecimalZ.of_to. reflexivity.
  - destruct z; simpl; try discriminate.
    intros [= H]. exact (to_uint_nonnil _ H).
  - destruct z; simpl; try discriminate.
    intros [= H]. exact (to_uint_nonnil _ H).
Qed.

Lemma dec_nonempty (z : Z) : dec z <> EmptyString.
Proof.
  intros H. pose proof (undec_dec z) as U. rewrite H in U. discriminate.
Qed.

Lemma undec_opt_dec_opt (o : option Z) : undec_opt (dec_opt o) = Some o.
Proof.
  destruct o as [z|]; simpl; [|reflexivity].
  unfold undec_opt. destruct (dec z) eqn:E.
  - exfalso. exact (dec_nonempty z E).
  - rewrite <- E, undec_dec. reflexivity.
Qed.

(* ================================================================== *)
(** * The token service *)
(* ================================================================== *)

Section TokenFacts.

Variable hmac : string -> string -> Z.
Variable ms : string -> option Z.
Variable jwt : JwtModule.

Lemma split_token (h p s : string) :
  occurs "." h = false -> occurs "." p = false -> occurs "." s = false ->
  split_on "." ((h ++ "." ++ p) ++ "." ++ s) = [h; p; s].
Proof.
  intros Hh Hp Hs.
  rewrite append_assoc.
  change (("." ++ p) ++ "." ++ s) with (String "." (p ++ String "." s)).
  rewrite (split_on_app _ _ _ Hh), (split_on_app _ _ _ Hp).
  rewrite (split_on_absent _ _ Hs). reflexivity.
Qed.

Lemma occurs_encode_payload (p : JWTPayload) :
  occurs "." (encode_payload p) = false.
Proof.
  unfold encode_payload.
  rewrite !occurs_app, occurs_dec, !occurs_dec_opt by reflexivity.
  reflexivity.
Qed.

Lemma decode_encode_payload (p : JWTPayload) :
  decode_payload (encode_payload p) = Some p.
Proof.
  unfold decode_payload, encode_payload.
  change ("," ++ dec_opt (iat p) ++ "," ++ dec_opt (exp p))
    with (String "," (dec_opt (iat p) ++ String "," (dec_opt (exp p)))).
  rewrite split_on_app by (apply occurs_dec; reflexivity).
  rewrite split_on_app by (apply occurs_dec_opt; reflexivity).
  rewrite split_on_absent by (apply occurs_dec_opt; reflexivity).
  rewrite undec_dec, !undec_opt_dec_opt. destruct p; reflexivity.
Qed.

(** What [jwt.verify] makes of a token signed for a payload under the same
    secret: the payload, unless the clock has reached its expiry. *)
Lemma jwt_verify_signed_at (p : JWTPayload) (secret : string) (now : Z) :
  jwt_verify hmac
    (signing_input p ++ "." ++ signature_of hmac secret (signing_input p))
    secret now
  = match exp p with
    | Some e => if e <=? now then Throw (TokenExpiredError e) else Return p
    | None => Return p
    end.
Proof.
  unfold jwt_verify, signing_input.
  rewrite split_token;
    [| reflexivity | apply occurs_encode_payload
     | apply occurs_dec; reflexivity].
  change (existsb (String.eqb jwt_header) jwt_algorithms) with true.
  simpl negb. cbv iota.
  rewrite decode_encode_payload, String.eqb_refl. reflexivity.
Qed.

(** A token signed for a payload verifies, under the same secret, to that
    payload as long as the clock is before its expiry. *)
Lemma jwt_verify_signed (p : JWTPayload) (secret : string) (now : Z) :
  (forall e, exp p = Some e -> now < e) ->
  jwt_verify hmac
    (signing_input p ++ "." ++ signature_of hmac secret (signing_input p))
    secret now = Return p.
Proof.
  intros Hexp. rewrite jwt_verify_signed_at.
  destruct (exp p) as [e|] eqn:E; [|reflexivity].
  specialize (Hexp e eq_refl).
  destruct (Z.leb_spec e now); [lia|reflexivity].
Qed.

(** [verifyToken] in terms of what [jwt.verify] does. *)
Lemma verifyToken_unfold (now : Z) (token : string) :
  verifyToken hmac jwt now token =
  match jwt_verify hmac token (JWT_SECRET jwt) now with
  | Return p => Return (Some p)
  | Throw _ => Return None
  end.
Proof.
  unfold verifyToken.
  destruct (jwt_verify hmac token (JWT_SECRET jwt) now); reflexivity.
Qed.



End TokenFacts.

(** C3 -- Token round trip: when the configured life time is one the signer
    accepts, [generateToken] returns a token for every user id, and
    verifying that token at any moment before its expiry (the issue time
    plus the life time) returns a payload carrying the same user id. *)
Theorem generateToken_verifyToken_roundtrip
    (hmac : string -> string -> Z) (ms : string -> option Z)
    (jwt : JwtModule) (uid now span : Z) :
  ms (JWT_EXPIRATION jwt) = Some span ->
  exists token,
    generateToken hmac ms jwt now uid = Return token
    /\ forall now', now' < now + span / 1000 ->
         exists p, verifyToken hmac jwt now' token = Return (Some p)
                   /\ userId p = uid.
Proof.
  intros Hms. unfold generateToken, jwt_sign. rewrite Hms.
  eexists. split; [reflexivity|].
  intros now' Hlt. eexists.
  rewrite verifyToken_unfold, jwt_verify_signed.
  - split; reflexivity.
  - simpl. intros e [= <-]. exact Hlt.
Qed.

Lemma generateToken_verifyToken_roundtrip_witness :
  exists token,
    generateToken test_hmac test_ms test_jwt 1700000000 42 = Return token
    /\ forall now', now' < 1700000000 + 2592000000 / 1000 ->
         exists p, verifyToken test_hmac test_jwt now' token = Return (Some p)
                   /\ userId p = 42.
Proof.
  apply (generateToken_verifyToken_roundtrip test_hmac test_ms test_jwt
           42 1700000000 2592000000).
  reflexivity.
Defined.

(** Expiry boundary: a token issued at [now] with life time [span] verifies
    at every moment strictly before [now + span / 1000] and, from that
    moment on, [jwt.verify] throws [TokenExpiredError] and [verifyToken]
    answers [null]. *)
Theorem verifyToken_expiry_boundary
    (hmac : string -> string -> Z) (ms : string -> option Z)
    (jwt : JwtModule) (uid now span now' : Z) (token : string) :
  ms (JWT_EXPIRATION jwt) = Some span ->
  generateToken hmac ms jwt now uid = Return token ->
  (now' < now + span / 1000 ->
   verifyToken hmac jwt now' token
   = Return (Some (mkJWTPayload (Some (now + span / 1000)) (Some now) uid)))
  /\ (now + span / 1000 <= now' ->
      jwt_verify hmac token (JWT_SECRET jwt) now'
      = Throw (TokenExpiredError (now + span / 1000))
      /\ verifyToken hmac jwt now' token = Return None).
Proof.
  intros Hms. unfold generateToken, jwt_sign. rewrite Hms. intros [= <-].
  rewrite verifyToken_unfold, jwt_verify_signed_at. cbn [exp].
  destruct (Z.leb_spec (now + span / 1000) now'); split; intros;
    try lia; auto.
Qed.

Lemma verifyToken_expiry_boundary_witness :
  (1702591999 < 1700000000 + 2592000000 / 1000 ->
   verifyToken test_hmac test_jwt 1702591999 issued_token
   = Return (Some (mkJWTPayload (Some (1700000000 + 2592000000 / 1000))
                     (Some 1700000000) 42)))
  /\ (1700000000 + 2592000000 / 1000 <= 1702591999 ->
      jwt_verify test_hmac issued_token (JWT_SECRET test_jwt) 1702591999
      = Throw (TokenExpiredError (1700000000 + 2592000000 / 1000))
      /\ verifyToken test_hmac test_jwt 1702591999 issued_token
         = Return None).
Proof.
  apply (verifyToken_expiry_boundary test_hmac test_ms test_jwt
           42 1700000000 2592000000 1702591999 issued_token);
    reflexivity.
Defined.

(** C4 (as the code has it) -- [verifyToken] answers [null] for every
    failure of [jwt.verify], whatever its kind: a malformed token, a bad
    signature and an expired token all give the same result. *)
Theorem verifyToken_failure_is_null
    (hmac : string -> string -> Z) (jwt : JwtModule) (now : Z)
    (token : string) (e : Error) :
  jwt_verify hmac token (JWT_SECRET jwt) now = Throw e ->
  verifyToken hmac jwt now token = Return None.
Proof. intros H. rewrite verifyToken_unfold, H. reflexivity. Qed.

Lemma verifyToken_failure_is_null_witness :
  jwt_verify test_hmac issued_token (JWT_SECRET test_jwt) 1800000000
    = Throw (TokenExpiredError 1702592000)
  /\ verifyToken test_hmac test_jwt 1800000000 issued_token = Return None.
Proof.
  split; [reflexivity|].
  apply (verifyToken_failure_is_null test_hmac test_jwt 1800000000
           issued_token (TokenExpiredError 1702592000)).
  reflexivity.
Defined.

(** C4 fails as stated: [jwt.verify] tells a malformed token, a bad
    signature and an expired token apart, but [verifyToken] gives the same
    [null] for all three, so its result does not. *)
Lemma verifyToken_conflates_invalid_and_expired :
  jwt_verify test_hmac malformed_token (JWT_SECRET test_jwt) 1800000000
    = Throw (JsonWebTokenError "jwt malformed")
  /\ jwt_verify test_hmac tampered_token (JWT_SECRET test_jwt) 1700000001
    = Throw (JsonWebTokenError "invalid signature")
  /\ jwt_verify test_hmac issued_token (JWT_SECRET test_jwt) 1800000000
    = Throw (TokenExpiredError 1702592000)
  /\ verifyToken test_hmac test_jwt 1800000000 malformed_token
    = verifyToken test_hmac test_jwt 1800000000 issued_token
  /\ verifyToken test_hmac test_jwt 1700000001 tampered_token
    = verifyToken test_hmac test_jwt 1800000000 issued_token.
Proof. repeat split; reflexivity. Qed.

(** C9 -- [verifyToken] is total: on every string it returns, a payload or
    [null], and never throws; it returns [null] exactly when [jwt.verify]
    throws. *)
Theorem verifyToken_total
    (hmac : string -> string -> Z) (jwt : JwtModule) (now : Z)
    (token : string) :
  exists r : option JWTPayload,
    verifyToken hmac jwt now token = Return r
    /\ (r = None
        <-> exists e, jwt_verify hmac token (JWT_SECRET jwt) now = Throw e).
Proof.
  rewrite verifyToken_unfold.
  destruct (jwt_verify hmac token (JWT_SECRET jwt) now) as [p|e].
  - exists (Some p). split; [reflexivity|].
    split; [discriminate | intros [e [=]]].
  - exists None. split; [reflexivity|]. split; eauto.
Qed.

(* ================================================================== *)
(** * The session guard *)
(* ================================================================== *)

(** C5 -- The guard fails closed: when the [Authorization] header is
    absent, does not start with [Bearer ], or carries a token that
    [verifyToken] rejects, the guard answers 401 and never calls [next()];
    and every request it does hand to [next()] carries the user id of a
    token that [verifyToken] accepted. *)
Theorem authMiddleware_fails_closed
    (hmac : string -> string -> Z) (jwt : JwtModule) (now : Z)
    (next : AuthRequest -> Completion unit) (r : AuthRequest) :
  ((authorization r = None
    \/ (exists h, authorization r = Some h
                  /\ startsWith h "Bearer " = false)
    \/ (exists h, authorization r = Some h
                  /\ verifyToken hmac jwt now (substring_from 7 h)
                     = Return None))
   -> passed_on (authMiddleware hmac jwt now next r) = []
      /\ req (authMiddleware hmac jwt now next r) = r
      /\ exists message,
           res (authMiddleware hmac jwt now next r)
           = Some (mkErrorResponse message 401))
  /\ (forall r', In r' (passed_on (authMiddleware hmac jwt now next r)) ->
        exists h p,
          authorization r = Some h
          /\ startsWith h "Bearer " = true
          /\ verifyToken hmac jwt now (substring_from 7 h) = Return (Some p)
          /\ req_userId r' = Some (userId p)).
Proof.
  unfold authMiddleware.
  destruct (authorization r) as [h|] eqn:A; simpl default.
  2:{ simpl. split; [eauto|]. intros r' []. }
  destruct (truthy (Some h)) eqn:T; simpl negb; cbv iota.
  2:{ simpl. split; [eauto|]. intros r' []. }
  destruct (startsWith h "Bearer ") eqn:B; simpl negb; simpl orb; cbv iota.
  2:{ simpl. split; [eauto|]. intros r' []. }
  pose proof (verifyToken_unfold hmac jwt now (substring_from 7 h)) as V.
  destruct (jwt_verify hmac (substring_from 7 h) (JWT_SECRET jwt) now)
    as [p|e]; rewrite V.
  - split.
    + intros [[=] | [(h' & [= <-] & B') | (h' & [= <-] & V')]]; congruence.
    + intros r' Hin. exists h, p.
      destruct (next _); simpl in Hin; destruct Hin as [<-|[]]; auto.
  - simpl. split; [eauto|]. intros r' [].
Qed.

Lemma authMiddleware_fails_closed_witness :
  passed_on (authMiddleware test_hmac test_jwt 1800000000
               (fun _ => Return tt)
               (mkAuthRequest (Some ("Bearer " ++ issued_token)) None)) = []
  /\ req (authMiddleware test_hmac test_jwt 1800000000
            (fun _ => Return tt)
            (mkAuthRequest (Some ("Bearer " ++ issued_token)) None))
     = mkAuthRequest (Some ("Bearer " ++ issued_token)) None
  /\ exists message,
       res (authMiddleware test_hmac test_jwt 1800000000
              (fun _ => Return tt)
              (mkAuthRequest (Some ("Bearer " ++ issued_token)) None))
       = Some (mkErrorResponse message 401).
Proof.
  apply (authMiddleware_fails_closed test_hmac test_jwt 1800000000
           (fun _ => Return tt)
           (mkAuthRequest (Some ("Bearer " ++ issued_token)) None)).
  right. right. exists ("Bearer " ++ issued_token). split; reflexivity.
Defined.

(* ================================================================== *)
(** * Start-up *)
(* ================================================================== *)

Lemma required_Return (env : gmap string string) (name v : string) :
  required env name = Return v
  <-> truthy (env !! name) = true /\ v = default "" (env !! name).
Proof.
  unfold required. destruct (truthy (env !! name)); split.
  - intros [= <-]. auto.
  - intros [_ ->]. reflexivity.
  - discriminate.
  - intros [[=] _].
Qed.






(* ================================================================== *)
(** * Account bootstrap *)
(* ================================================================== *)

(** Reduce the projections of the stores built along a transaction. *)
Ltac store_simpl :=
  cbn [db clock users authAccounts characters userCharacters users_id_seq
       accounts_id_seq user_characters_id_seq User.id negb].

(** Close a goal about a registration that has just failed: the world is
    [w] with its sequences moved on. *)
Ltac rolled_back_at w :=
  do 3 eexists;
  split;
  [ unfold rolled_back, consume_users_id, consume_accounts_id,
      consume_user_characters_id; store_simpl; reflexivity
  | store_simpl; lia ].

Lemma user_exists_after_insert uid e n av t1 t2 l a c ch s2 s3 s1 :
  user_exists uid (mkDB (l ++ [User.mk uid e n av t1 t2]) a ch c s1 s2 s3)
  = true.
Proof.
  unfold user_exists. simpl. rewrite existsb_app. simpl.
  rewrite Z.eqb_refl. apply orb_true_iff. right. reflexivity.
Qed.

(** A registration that no constraint blocks writes its three rows. *)
Lemma createUser_commits (data : RegistrationInput.t) (w : World) :
  can_register data (db w) = true ->
  createUserWithAuthAndCharacter data w
  = (Return (new_user data w), registered data w).
Proof.
  unfold can_register. rewrite !andb_true_iff, !negb_true_iff.
  intros [[[[[H1 H2] H3] H4] H5] H6].
  unfold createUserWithAuthAndCharacter, transaction, bind, user_create.
  rewrite H1, H2. store_simpl.
  unfold authAccount_create. store_simpl.
  rewrite H3. unfold identity_linked in *. store_simpl.
  rewrite H4.
  rewrite user_exists_after_insert. store_simpl.
  unfold userCharacter_create.
  store_simpl.
  rewrite H5, user_exists_after_insert. store_simpl.
  unfold character_exists in *. store_simpl. rewrite H6.
  reflexivity.
Qed.

(** A registration that a constraint blocks throws and leaves every table
    as it was; the ids its inserts drew stay drawn. *)
Lemma createUser_rolls_back (data : RegistrationInput.t) (w : World) :
  can_register data (db w) = false ->
  exists e s2 s3,
    createUserWithAuthAndCharacter data w
    = (Throw e,
       mkWorld
         (mkDB (users (db w)) (authAccounts (db w)) (characters (db w))
            (userCharacters (db w)) (users_id_seq (db w) + 1) s2 s3)
         (clock w))
    /\ accounts_id_seq (db w) <= s2 <= accounts_id_seq (db w) + 1
    /\ user_characters_id_seq (db w) <= s3
       <= user_characters_id_seq (db w) + 1.
Proof.
  intros H. unfold can_register, identity_linked, character_exists in H.
  unfold createUserWithAuthAndCharacter, transaction, bind, user_create.
  destruct (user_exists (users_id_seq (db w)) (db w)); [rolled_back_at w|].
  destruct (email_taken _ (db w)); [rolled_back_at w|].
  store_simpl. unfold authAccount_create, identity_linked. store_simpl.
  destruct (existsb (fun a => AuthAccount.id a =? accounts_id_seq (db w))
              (authAccounts (db w))); [rolled_back_at w|].
  destruct (existsb (same_identity _ _) (authAccounts (db w)));
    [rolled_back_at w|].
  rewrite user_exists_after_insert. store_simpl.
  unfold userCharacter_create, character_exists. store_simpl.
  destruct (existsb
              (fun c => UserCharacter.id c =? user_characters_id_seq (db w))
              (userCharacters (db w))); [rolled_back_at w|].
  rewrite user_exists_after_insert. store_simpl.
  destruct (existsb _ (characters (db w))); [discriminate H|].
  rolled_back_at w.
Qed.




(* ================================================================== *)
(** * The sign-in service *)
(* ================================================================== *)

Lemma existsb_false_find {A} (f : A -> bool) (l : list A) :
  existsb f l = false -> find f l = None.
Proof.
  induction l as [|x l IH]; simpl; [reflexivity|].
  intros H. apply orb_false_iff in H as [Hx Hl].
  rewrite Hx. exact (IH Hl).
Qed.

Lemma find_app_last {A} (f : A -> bool) (l : list A) (x : A) :
  existsb f l = false -> f x = true -> find f (l ++ [x]) = Some x.
Proof.
  induction l as [|y l IH]; simpl; intros Hl Hx.
  - rewrite Hx. reflexivity.
  - apply orb_false_iff in Hl as [Hy Hl]. rewrite Hy. exact (IH Hl Hx).
Qed.

Lemma forallb_existsb_false {A} (p q : A -> bool) (l : list A) :
  (forall x, p x = true -> q x = false) ->
  forallb p l = true -> existsb q l = false.
Proof.
  intros Hpq. induction l as [|x l IH]; simpl; [reflexivity|].
  intros H. apply andb_true_iff in H as [Hx Hl].
  rewrite (Hpq _ Hx), (IH Hl). reflexivity.
Qed.

Lemma filter_none {A} (p q : A -> bool) (l : list A) :
  (forall x, p x = true -> q x = false) ->
  forallb p l = true -> List.filter q l = [].
Proof.
  intros Hpq. induction l as [|x l IH]; simpl; [reflexivity|].
  intros H. apply andb_true_iff in H as [Hx Hl].
  rewrite (Hpq _ Hx). exact (IH Hl).
Qed.

(** In a well-formed store the next ids are free. *)
Lemma db_wf_fresh (d : DB) :
  db_wf d = true ->
  user_exists (users_id_seq d) d = false
  /\ existsb (fun a => AuthAccount.id a =? accounts_id_seq d)
       (authAccounts d) = false
  /\ existsb (fun c => UserCharacter.id c =? user_characters_id_seq d)
       (userCharacters d) = false
  /\ List.filter (fun c => UserCharacter.userId c =? users_id_seq d)
       (userCharacters d) = [].
Proof.
  unfold db_wf, user_exists. rewrite !andb_true_iff. intros [[Hu Ha] Hc].
  repeat split.
  - revert Hu. apply forallb_existsb_false. intros x. lia.
  - revert Ha. apply forallb_existsb_false. intros x. lia.
  - revert Hc. apply forallb_existsb_false. intros x. lia.
  - revert Hc. apply filter_none. intros x. lia.
Qed.

(** The resolver never writes. *)
Lemma Prisma_findByProvider_reads (provider pid : string) (w : World) :
  snd (Prisma_findByProvider provider pid w) = w.
Proof.
  unfold Prisma_findByProvider.
  destruct (find _ (authAccounts (db w))); [|reflexivity].
  destruct (find _ (users (db w))); reflexivity.
Qed.

Lemma Prisma_findByProvider_unlinked (provider pid : string) (w : World) :
  identity_linked provider pid (db w) = false ->
  Prisma_findByProvider provider pid w = (Return None, w).
Proof.
  intros H. unfold Prisma_findByProvider.
  rewrite (existsb_false_find _ _ H). reflexivity.
Qed.

(** Right after a registration the resolver finds its account and user. *)
Lemma Prisma_findByProvider_registered
    (data : RegistrationInput.t) (w : World) (t : Z) :
  can_register data (db w) = true ->
  Prisma_findByProvider
    (RegistrationInput.provider (RegistrationInput.authAccount data))
    (RegistrationInput.providerAccountId (RegistrationInput.authAccount data))
    (mkWorld (db (registered data w)) t)
  = (Return (Some (mkAuthAccountWithUser (new_account data w)
                     (new_user data w))),
     mkWorld (db (registered data w)) t).
Proof.
  unfold can_register. rewrite !andb_true_iff, !negb_true_iff.
  intros [[[[[H1 _] _] H4] _] _].
  unfold Prisma_findByProvider, registered. store_simpl.
  rewrite (find_app_last _ _ (new_account data w) H4).
  2:{ unfold same_identity, new_account. simpl.
      rewrite !String.eqb_refl. reflexivity. }
  cbn [AuthAccount.userId new_account].
  rewrite (find_app_last _ _ (new_user data w) H1).
  - reflexivity.
  - simpl. apply Z.eqb_refl.
Qed.

Section ServiceFacts.

Variable hmac : string -> string -> Z.
Variable ms : string -> option Z.
Variable jwt : JwtModule.

(** [authenticateWithGoogle], one await at a time. *)
Lemma authenticateWithGoogle_unfold (code : string) (repos : Repositories)
    (google : GoogleOAuthClient) (w : World) :
  authenticateWithGoogle hmac ms jwt code repos google w =
  match getUserInfo google code with
  | Throw e => (Throw e, w)
  | Return g =>
      match findByProvider (authAccountRepository repos) "google"
              (GoogleUserInfo.id g) w with
      | (Throw e, w1) => (Throw e, w1)
      | (Return (Some acc), w1) => finish hmac ms jwt (user acc) false w1
      | (Return None, w1) =>
          match createUserWithAuthAccountAndUserCharacterTx
                  (userRegistrationRepository repos)
                  (registration_of g) w1 with
          | (Throw e, w2) => (Throw e, w2)
          | (Return u, w2) => finish hmac ms jwt u true w2
          end
      end
  end.
Proof.
  unfold authenticateWithGoogle, bind, sync, ret, finish.
  destruct (getUserInfo google code) as [g|e]; [|reflexivity].
  destruct (findByProvider _ _ _ w) as [[[acc|]|e] w1];
    cbn -[generateToken]; try reflexivity.
  destruct (createUserWithAuthAccountAndUserCharacterTx _ _ w1)
    as [[u|e] w2]; reflexivity.
Qed.

End ServiceFacts.

(** C1 (as the code has it) -- When the resolver finds no link and the
    registration then throws, for whatever reason, the uniqueness of the
    linked identity included, [authenticateWithGoogle] throws that same
    error from the world the registration left: it does not run the
    resolver again and it issues no token. *)
Theorem authenticateWithGoogle_registration_error_propagates
    (hmac : string -> string -> Z) (ms : string -> option Z)
    (jwt : JwtModule) (code : string) (repos : Repositories)
    (google : GoogleOAuthClient) (g : GoogleUserInfo.t)
    (w w1 w2 : World) (e : Error) :
  getUserInfo google code = Return g ->
  findByProvider (authAccountRepository repos) "google"
    (GoogleUserInfo.id g) w = (Return None, w1) ->
  createUserWithAuthAccountAndUserCharacterTx
    (userRegistrationRepository repos) (registration_of g) w1
    = (Throw e, w2) ->
  authenticateWithGoogle hmac ms jwt code repos google w = (Throw e, w2).
Proof.
  intros G F C.
  rewrite authenticateWithGoogle_unfold, G, F, C. reflexivity.
Qed.

Lemma authenticateWithGoogle_registration_error_propagates_witness :
  authenticateWithGoogle test_hmac test_ms test_jwt "code-1"
    (racing_repositories alice_renamed) test_google seeded_world
  = (Throw (PrismaClientKnownRequestError "P2002"
              "provider,provider_account_id"),
     mkWorld
       (mkDB [new_user (registration_of alice_renamed) seeded_world]
          [new_account (registration_of alice_renamed) seeded_world]
          (characters seeded_db)
          [new_character (registration_of alice_renamed) seeded_world]
          3 3 2)
       1700000000).
Proof.
  apply (authenticateWithGoogle_registration_error_propagates
           test_hmac test_ms test_jwt "code-1"
           (racing_repositories alice_renamed) test_google alice
           seeded_world seeded_world);
    reflexivity.
Defined.

(** C1 fails as stated: a first sign-in whose resolver found no link and
    whose registration lost the race to another request for the same
    Google account ends in the constraint error, although the resolver,
    run again, would find the winner's account.  With the winner under
    another e-mail the violated constraint is the one on the linked
    identity; with the very same profile it is the one on the e-mail. *)
Lemma authenticateWithGoogle_race_not_recovered :
  Prisma_findByProvider "google" "abc123" seeded_world
    = (Return None, seeded_world)
  /\ fst (authenticateWithGoogle test_hmac test_ms test_jwt "code-1"
            (racing_repositories alice_renamed) test_google seeded_world)
     = Throw (PrismaClientKnownRequestError "P2002"
                "provider,provider_account_id")
  /\ fst (authenticateWithGoogle test_hmac test_ms test_jwt "code-1"
            (racing_repositories alice) test_google seeded_world)
     = Throw (PrismaClientKnownRequestError "P2002" "email")
  /\ (exists acc,
        fst (Prisma_findByProvider "google" "abc123"
               (snd (authenticateWithGoogle test_hmac test_ms test_jwt
                       "code-1" (racing_repositories alice_renamed)
                       test_google seeded_world)))
        = Return (Some acc)
        /\ User.id (user acc) = 1).
Proof.
  split; [reflexivity|]. split; [reflexivity|]. split; [reflexivity|].
  eexists. split; reflexivity.
Qed.




(** C6 (as the code has it) -- No duplicate linking, for a Google identity
    that is not linked yet.  On a well-formed store where no other user
    holds the profile's e-mail, the starter character is seeded and the
    configured life time is one the signer accepts, the first sign-in
    returns.  Whenever the first sign-in returns, it returns
    [isNewUser = true] and has added one user and one account linking the
    identity to that user; a second sign-in for the same identity, at any
    later time, then returns [isNewUser = false] with the same user and
    leaves the store untouched. *)
Theorem authenticateWithGoogle_twice
    (hmac : string -> string -> Z) (ms : string -> option Z)
    (jwt : JwtModule) (code1 code2 : string) (google : GoogleOAuthClient)
    (g1 g2 : GoogleUserInfo.t) (w : World) :
  getUserInfo google code1 = Return g1 ->
  getUserInfo google code2 = Return g2 ->
  GoogleUserInfo.id g2 = GoogleUserInfo.id g1 ->
  identity_linked "google" (GoogleUserInfo.id g1) (db w) = false ->
  (db_wf (db w) = true ->
   email_taken (Some (GoogleUserInfo.email g1)) (db w) = false ->
   character_exists TRAECHAN (db w) = true ->
   (exists span, ms (JWT_EXPIRATION jwt) = Some span) ->
   exists r1 w1,
     authenticateWithGoogle hmac ms jwt code1 prisma_repositories google w
     = (Return r1, w1))
  /\ (forall r1 w1,
        authenticateWithGoogle hmac ms jwt code1 prisma_repositories google w
        = (Return r1, w1) ->
        isNewUser r1 = true
        /\ users (db w1) = (users (db w) ++ [result_user r1])%list
        /\ (exists a,
              authAccounts (db w1) = (authAccounts (db w) ++ [a])%list
              /\ AuthAccount.userId a = User.id (result_user r1)
              /\ AuthAccount.provider a = "google"
              /\ AuthAccount.providerAccountId a = GoogleUserInfo.id g1)
        /\ forall t, exists r2,
             authenticateWithGoogle hmac ms jwt code2 prisma_repositories
               google (mkWorld (db w1) t)
             = (Return r2, mkWorld (db w1) t)
             /\ isNewUser r2 = false
             /\ result_user r2 = result_user r1).
Proof.
  intros G1 G2 Gid L.
  assert (A1 : authenticateWithGoogle hmac ms jwt code1 prisma_repositories
                 google w
               = match createUserWithAuthAndCharacter (registration_of g1) w
                 with
                 | (Throw e, w2) => (Throw e, w2)
                 | (Return u, w2) => finish hmac ms jwt u true w2
                 end).
  { rewrite authenticateWithGoogle_unfold, G1.
    cbn [prisma_repositories authAccountRepository
         userRegistrationRepository findByProvider
         PrismaAuthAccountRepository
         createUserWithAuthAccountAndUserCharacterTx
         PrismaUserRegistrationRepository].
    rewrite (Prisma_findByProvider_unlinked _ _ _ L). reflexivity. }
  rewrite A1. split.
  - intros WF E C [span Hms].
    assert (CR : can_register (registration_of g1) (db w) = true).
    { destruct (db_wf_fresh _ WF) as (F1 & F2 & F3 & _).
      unfold can_register. cbn [registration_of RegistrationInput.email
        RegistrationInput.user RegistrationInput.provider
        RegistrationInput.providerAccountId RegistrationInput.authAccount
        RegistrationInput.characterCode RegistrationInput.userCharacter].
      rewrite F1, F2, F3, L, E, C. reflexivity. }
    rewrite (createUser_commits _ _ CR).
    unfold finish, generateToken, jwt_sign. rewrite Hms. eauto.
  - intros r1 w1 A.
    destruct (can_register (registration_of g1) (db w)) eqn:CR.
    2:{ destruct (createUser_rolls_back _ _ CR) as (e & s2 & s3 & R & _).
        rewrite R in A. discriminate A. }
    rewrite (createUser_commits _ _ CR) in A.
    unfold finish, generateToken, jwt_sign in A.
    destruct (ms (JWT_EXPIRATION jwt)) as [span|] eqn:Hms; [|discriminate A].
    injection A as <- <-. cbn [isNewUser result_user].
    split; [reflexivity|]. split; [reflexivity|]. split.
    + exists (new_account (registration_of g1) w).
      repeat split.
    + intros t. eexists.
      rewrite authenticateWithGoogle_unfold, G2, Gid.
      cbn [prisma_repositories authAccountRepository findByProvider
           PrismaAuthAccountRepository].
      pose proof (Prisma_findByProvider_registered (registration_of g1) w t
                    CR) as F.
      cbn [registration_of RegistrationInput.provider
           RegistrationInput.providerAccountId RegistrationInput.authAccount]
        in F.
      rewrite F. unfold finish, generateToken, jwt_sign. rewrite Hms.
      cbn [user]. split; [reflexivity|]. split; reflexivity.
Qed.

Lemma authenticateWithGoogle_twice_witness :
  (db_wf (db seeded_world) = true ->
   email_taken (Some (GoogleUserInfo.email alice)) (db seeded_world) = false ->
   character_exists TRAECHAN (db seeded_world) = true ->
   (exists span, test_ms (JWT_EXPIRATION test_jwt) = Some span) ->
   exists r1 w1,
     authenticateWithGoogle test_hmac test_ms test_jwt "code-1"
       prisma_repositories test_google seeded_world
     = (Return r1, w1))
  /\ (forall r1 w1,
        authenticateWithGoogle test_hmac test_ms test_jwt "code-1"
          prisma_repositories test_google seeded_world
        = (Return r1, w1) ->
        isNewUser r1 = true
        /\ users (db w1) = (users (db seeded_world) ++ [result_user r1])%list
        /\ (exists a,
              authAccounts (db w1)
              = (authAccounts (db seeded_world) ++ [a])%list
              /\ AuthAccount.userId a = User.id (result_user r1)
              /\ AuthAccount.provider a = "google"
              /\ AuthAccount.providerAccountId a = GoogleUserInfo.id alice)
        /\ forall t, exists r2,
             authenticateWithGoogle test_hmac test_ms test_jwt "code-2"
               prisma_repositories test_google (mkWorld (db w1) t)
             = (Return r2, mkWorld (db w1) t)
             /\ isNewUser r2 = false
             /\ result_user r2 = result_user r1).
Proof.
  apply (authenticateWithGoogle_twice test_hmac test_ms test_jwt
           "code-1" "code-2" test_google alice alice seeded_world);
    reflexivity.
Defined.

(** C6 fails as stated: the first sign-in need not return
    [isNewUser = true].  On a well-formed, seeded store where the Google
    identity is not linked but another user already holds the profile's
    e-mail, the first sign-in throws on the e-mail's uniqueness and
    creates no user and no account. *)
Lemma authenticateWithGoogle_first_sign_in_blocked :
  db_wf (db email_taken_world) = true
  /\ identity_linked "google" (GoogleUserInfo.id alice)
       (db email_taken_world) = false
  /\ getUserInfo test_google "code-1" = Return alice
  /\ exists w1,
       authenticateWithGoogle test_hmac test_ms test_jwt "code-1"
         prisma_repositories test_google email_taken_world
       = (Throw (PrismaClientKnownRequestError "P2002" "email"), w1)
       /\ users (db w1) = users (db email_taken_world)
       /\ authAccounts (db w1) = [].
Proof.
  split; [reflexivity|]. split; [reflexivity|]. split; [reflexivity|].
  eexists. split; [reflexivity|]. split; reflexivity.
Qed.

(* ================================================================== *)
(** * Invariants of the store *)
(* ================================================================== *)

Lemma forallb_weaken {A} (p q : A -> bool) (l : list A) :
  (forall x, p x = true -> q x = true) ->
  forallb p l = true -> forallb q l = true.
Proof.
  intros Hpq. rewrite !forallb_forall. intros H x Hx. auto.
Qed.

Lemma unlinked_not_in (provider pid : string) (l : list AuthAccount.t) :
  existsb (same_identity provider pid) l = false ->
  ~ In (provider, pid)
      (map (fun a => (AuthAccount.provider a, AuthAccount.providerAccountId a))
         l).
Proof.
  induction l as [|a l IH]; simpl; [tauto|].
  intros H. apply orb_false_iff in H as [Ha Hl].
  intros [[= <- <-]|Hin]; [|exact (IH Hl Hin)].
  unfold same_identity in Ha. rewrite !String.eqb_refl in Ha. discriminate.
Qed.

Lemma registered_wf (data : RegistrationInput.t) (w : World) :
  db_wf (db w) = true -> db_wf (db (registered data w)) = true.
Proof.
  unfold db_wf, registered. store_simpl.
  rewrite !andb_true_iff, !forallb_app. simpl.
  rewrite !andb_true_iff.
  intros [[Hu Ha] Hc]. repeat split; try lia.
  - revert Hu. apply forallb_weaken. intros x. lia.
  - revert Ha. apply forallb_weaken. intros x. lia.
  - revert Hc. apply forallb_weaken. intros x. lia.
Qed.

Lemma registered_unique (data : RegistrationInput.t) (w : World) :
  can_register data (db w) = true ->
  identities_unique (db w) -> identities_unique (db (registered data w)).
Proof.
  unfold can_register. rewrite !andb_true_iff, !negb_true_iff.
  intros [[[[[_ _] _] H4] _] _] U.
  unfold identities_unique, registered in *. store_simpl.
  rewrite map_app. simpl.
  apply NoDup_app. split; [exact U|]. split.
  - intros x Hx Hx'. apply list_elem_of_singleton in Hx'. subst x.
    apply list_elem_of_In in Hx.
    exact (unlinked_not_in _ _ _ H4 Hx).
  - apply NoDup_singleton.
Qed.

(** The registration keeps the store well formed and keeps every external
    identity linked at most once, whether it commits or rolls back. *)
Theorem createUserWithAuthAndCharacter_preserves_invariants
    (data : RegistrationInput.t) (w : World) :
  db_wf (db w) = true ->
  identities_unique (db w) ->
  db_wf (db (snd (createUserWithAuthAndCharacter data w))) = true
  /\ identities_unique (db (snd (createUserWithAuthAndCharacter data w))).
Proof.
  intros WF U.
  destruct (can_register data (db w)) eqn:C.
  - rewrite (createUser_commits _ _ C). cbn [snd].
    split; [exact (registered_wf _ _ WF) | exact (registered_unique _ _ C U)].
  - destruct (createUser_rolls_back _ _ C) as (e & s2 & s3 & -> & B2 & B3).
    cbn [snd]. split; [|exact U].
    revert WF. unfold db_wf. store_simpl.
    rewrite !andb_true_iff. intros [[Hu Ha] Hc]. repeat split.
    + revert Hu. apply forallb_weaken. intros x. lia.
    + revert Ha. apply forallb_weaken. intros x. lia.
    + revert Hc. apply forallb_weaken. intros x. lia.
Qed.

Lemma createUserWithAuthAndCharacter_preserves_invariants_witness :
  db_wf (db (snd (createUserWithAuthAndCharacter (registration_of alice)
                    seeded_world))) = true
  /\ identities_unique
       (db (snd (createUserWithAuthAndCharacter (registration_of alice)
                   seeded_world))).
Proof.
  apply (createUserWithAuthAndCharacter_preserves_invariants
           (registration_of alice) seeded_world).
  - reflexivity.
  - apply NoDup_nil_2.
Defined.

(** A sign-in for an identity the resolver finds returns that account's
    user with [isNewUser = false] and a fresh token, and writes nothing. *)
Theorem authenticateWithGoogle_existing_user
    (hmac : string -> string -> Z) (ms : string -> option Z)
    (jwt : JwtModule) (code : string) (google : GoogleOAuthClient)
    (g : GoogleUserInfo.t) (w : World) (acc : AuthAccountWithUser)
    (span : Z) :
  getUserInfo google code = Return g ->
  fst (Prisma_findByProvider "google" (GoogleUserInfo.id g) w)
    = Return (Some acc) ->
  ms (JWT_EXPIRATION jwt) = Some span ->
  exists token,
    generateToken hmac ms jwt (clock w) (User.id (user acc)) = Return token
    /\ authenticateWithGoogle hmac ms jwt code prisma_repositories google w
       = (Return (mkResult false token (user acc)), w).
Proof.
  intros G F Hms.
  rewrite authenticateWithGoogle_unfold, G.
  cbn [prisma_repositories authAccountRepository findByProvider
       PrismaAuthAccountRepository].
  pose proof (Prisma_findByProvider_reads "google" (GoogleUserInfo.id g) w)
    as R.
  destruct (Prisma_findByProvider "google" (GoogleUserInfo.id g) w)
    as [c w1]. cbn [fst snd] in F, R. subst c w1.
  unfold finish, generateToken, jwt_sign. rewrite Hms.
  eexists. split; reflexivity.
Qed.

Lemma authenticateWithGoogle_existing_user_witness :
  exists token,
    generateToken test_hmac test_ms test_jwt
      (clock (registered (registration_of alice) seeded_world))
      (User.id (new_user (registration_of alice) seeded_world))
    = Return token
    /\ authenticateWithGoogle test_hmac test_ms test_jwt "code-2"
         prisma_repositories test_google
         (registered (registration_of alice) seeded_world)
       = (Return (mkResult false token
                    (new_user (registration_of alice) seeded_world)),
          registered (registration_of alice) seeded_world).
Proof.
  apply (authenticateWithGoogle_existing_user test_hmac test_ms test_jwt
           "code-2" test_google alice
           (registered (registration_of alice) seeded_world)
           (mkAuthAccountWithUser
              (new_account (registration_of alice) seeded_world)
              (new_user (registration_of alice) seeded_world))
           2592000000);
    reflexivity.
Defined.

(* ================================================================== *)
(** * More on tokens, the guard and start-up *)
(* ================================================================== *)





(** The guard lets a valid bearer through: with a header [Bearer t] whose
    token [verifyToken] accepts, it calls [next()] exactly once, on the
    request with the token's user id attached, and sends nothing itself
    unless the rest of the chain throws, which it answers with 500. *)
Theorem authMiddleware_accepts_valid_bearer
    (hmac : string -> string -> Z) (jwt : JwtModule) (now : Z)
    (next : AuthRequest -> Completion unit) (r : AuthRequest)
    (t : string) (p : JWTPayload) :
  authorization r = Some ("Bearer " ++ t) ->
  verifyToken hmac jwt now t = Return (Some p) ->
  passed_on (authMiddleware hmac jwt now next r)
    = [mkAuthRequest (authorization r) (Some (userId p))]
  /\ req (authMiddleware hmac jwt now next r)
     = mkAuthRequest (authorization r) (Some (userId p))
  /\ res (authMiddleware hmac jwt now next r)
     = match next (mkAuthRequest (authorization r) (Some (userId p))) with
       | Return _ => None
       | Throw _ => Some (mkErrorResponse "Authentication failed" 500)
       end.
Proof.
  intros A V. unfold authMiddleware. rewrite A.
  change (substring_from 7 (default "" (Some ("Bearer " ++ t)))) with t.
  replace (truthy (Some ("Bearer " ++ t))) with true by reflexivity.
  replace (startsWith (default "" (Some ("Bearer " ++ t))) "Bearer ")
    with true.
  2:{ unfold startsWith. simpl. destruct t; reflexivity. }
  simpl negb. simpl orb. cbv iota. rewrite V.
  destruct (next _); repeat split.
Qed.

Lemma authMiddleware_accepts_valid_bearer_witness :
  passed_on (authMiddleware test_hmac test_jwt 1700000001
               (fun _ => Return tt)
               (mkAuthRequest (Some ("Bearer " ++ issued_token)) None))
    = [mkAuthRequest (Some ("Bearer " ++ issued_token)) (Some 42)]
  /\ req (authMiddleware test_hmac test_jwt 1700000001
            (fun _ => Return tt)
            (mkAuthRequest (Some ("Bearer " ++ issued_token)) None))
     = mkAuthRequest (Some ("Bearer " ++ issued_token)) (Some 42)
  /\ res (authMiddleware test_hmac test_jwt 1700000001
            (fun _ => Return tt)
            (mkAuthRequest (Some ("Bearer " ++ issued_token)) None))
     = None.
Proof.
  apply (authMiddleware_accepts_valid_bearer test_hmac test_jwt 1700000001
           (fun _ => Return tt)
           (mkAuthRequest (Some ("Bearer " ++ issued_token)) None)
           issued_token
           (mkJWTPayload (Some 1702592000) (Some 1700000000) 42));
    reflexivity.
Defined.



(* ================================================================== *)
(** * The repositories *)
(* ================================================================== *)

Lemma find_none_existsb {A} (f : A -> bool) (l : list A) :
  find f l = None -> existsb f l = false.
Proof.
  induction l as [|x l IH]; simpl; [reflexivity|].
  destruct (f x); [discriminate|]. exact IH.
Qed.

Lemma find_app_skip {A} (f : A -> bool) (l : list A) (x : A) :
  f x = false -> find f (l ++ [x]) = find f l.
Proof.
  intros Hx. induction l as [|y l IH]; simpl.
  - rewrite Hx. reflexivity.
  - destruct (f y); [reflexivity|exact IH].
Qed.

(** The resolver is sound and complete and never writes.  It answers
    [null] exactly when no account links the identity.  An account it
    returns is a stored account for that very identity together with the
    stored user the account points to.  It throws only when an account
    links the identity and that account's user is missing; so on a store
    where every account's user is stored, as the foreign key ensures, a
    linked identity is always returned. *)
Theorem Prisma_findByProvider_correct
    (provider pid : string) (w : World) :
  snd (Prisma_findByProvider provider pid w) = w
  /\ (fst (Prisma_findByProvider provider pid w) = Return None
      <-> identity_linked provider pid (db w) = false)
  /\ (forall acc,
        fst (Prisma_findByProvider provider pid w) = Return (Some acc) ->
        In (account acc) (authAccounts (db w))
        /\ AuthAccount.provider (account acc) = provider
        /\ AuthAccount.providerAccountId (account acc) = pid
        /\ In (user acc) (users (db w))
        /\ User.id (user acc) = AuthAccount.userId (account acc))
  /\ (forall e,
        fst (Prisma_findByProvider provider pid w) = Throw e ->
        exists a,
          In a (authAccounts (db w))
          /\ AuthAccount.provider a = provider
          /\ AuthAccount.providerAccountId a = pid
          /\ user_exists (AuthAccount.userId a) (db w) = false)
  /\ ((forall a, In a (authAccounts (db w)) ->
                 user_exists (AuthAccount.userId a) (db w) = true) ->
      identity_linked provider pid (db w) = true ->
      exists acc,
        fst (Prisma_findByProvider provider pid w) = Return (Some acc)).
Proof.
  unfold Prisma_findByProvider, identity_linked, user_exists.
  destruct (find _ (authAccounts (db w))) as [a|] eqn:F.
  - pose proof (find_some _ _ F) as [Fin Fm].
    unfold same_identity in Fm. apply andb_true_iff in Fm as [P1 P2].
    apply String.eqb_eq in P1, P2.
    assert (L : existsb (same_identity provider pid) (authAccounts (db w))
                = true).
    { apply existsb_exists. exists a. split; [exact Fin|].
      unfold same_identity. rewrite P1, P2, !String.eqb_refl. reflexivity. }
    destruct (find _ (users (db w))) as [u|] eqn:U; cbn [fst snd].
    + pose proof (find_some _ _ U) as [Uin Um]. apply Z.eqb_eq in Um.
      split; [reflexivity|]. split; [|split; [|split]].
      * split; [discriminate|]. rewrite L. discriminate.
      * intros acc [= <-]. cbn [account user]. auto 8.
      * discriminate.
      * intros _ _. eauto.
    + split; [reflexivity|]. split; [|split; [|split]].
      * split; [discriminate|]. rewrite L. discriminate.
      * discriminate.
      * intros e _. exists a. repeat split; try assumption.
        exact (find_none_existsb _ _ U).
      * intros FK _. specialize (FK a Fin).
        rewrite (find_none_existsb _ _ U) in FK. discriminate.
  - cbn [fst snd]. pose proof (find_none_existsb _ _ F) as L.
    split; [reflexivity|]. split; [|split; [|split]].
    + split; [intros _; exact L | reflexivity].
    + discriminate.
    + discriminate.
    + intros _ L'. rewrite L in L'. discriminate.
Qed.

(** Insert and look up a user: a user the repository created is what
    [findById] returns for its id and what [findByEmail] returns for its
    e-mail; on a well-formed store, creating another user with the same
    e-mail throws the unique-constraint error and stores no row: all it
    leaves behind is the user id it has drawn. *)
Theorem PrismaUserRepository_create_then_find
    (data : CreateUserInput.t) (w w' : World) (u : User.t) :
  db_wf (db w) = true ->
  PrismaUserRepository_create data w = (Return u, w') ->
  User.email u = CreateUserInput.email data
  /\ User.name u = CreateUserInput.name data
  /\ User.avatarUrl u = CreateUserInput.avatarUrl data
  /\ findById (User.id u) w' = (Return (Some u), w')
  /\ forall e, CreateUserInput.email data = Some e ->
       findByEmail e w' = (Return (Some u), w')
       /\ forall other,
            CreateUserInput.email other = Some e ->
            PrismaUserRepository_create other w'
            = (Throw (PrismaClientKnownRequestError "P2002" "email"),
               consume_users_id w').
Proof.
  intros WF. unfold PrismaUserRepository_create, user_create.
  destruct (user_exists _ (db w)) eqn:X; [discriminate|].
  destruct (email_taken _ (db w)) eqn:T; [discriminate|].
  intros [= <- <-]. cbn [User.email User.name User.avatarUrl User.id].
  repeat split.
  - unfold findById. store_simpl.
    rewrite (find_app_last _ _ _ X); [reflexivity|].
    simpl. apply Z.eqb_refl.
  - unfold findByEmail. store_simpl. rewrite H in T.
    rewrite (find_app_last (email_is e) _ _ T); [reflexivity|].
    unfold email_is. simpl. rewrite H. apply String.eqb_refl.
  - intros other O. unfold consume_users_id. store_simpl.
    assert (F : user_exists (users_id_seq (db w) + 1)
                  (mkDB (users (db w)
                         ++ [User.mk (users_id_seq (db w))
                               (CreateUserInput.email data)
                               (CreateUserInput.name data)
                               (CreateUserInput.avatarUrl data)
                               (clock w) (clock w)])
                     (authAccounts (db w)) (characters (db w))
                     (userCharacters (db w)) (users_id_seq (db w) + 1)
                     (accounts_id_seq (db w))
                     (user_characters_id_seq (db w))) = false).
    { unfold user_exists. store_simpl. rewrite existsb_app. simpl.
      unfold db_wf in WF. rewrite !andb_true_iff in WF.
      destruct WF as [[Hu _] _].
      assert (E : existsb (fun u => User.id u =? users_id_seq (db w) + 1)
                    (users (db w)) = false).
      { revert Hu. apply forallb_existsb_false. intros x. lia. }
      rewrite E. simpl. apply orb_false_iff. split; [lia|reflexivity]. }
    rewrite F. rewrite O. unfold email_taken. store_simpl.
    rewrite existsb_app. simpl. rewrite H, String.eqb_refl.
    rewrite orb_true_r. reflexivity.
Qed.

Lemma PrismaUserRepository_create_then_find_witness :
  User.email (new_user (registration_of alice) seeded_world)
    = Some "u@example.com"
  /\ User.name (new_user (registration_of alice) seeded_world) = Some "Alice"
  /\ User.avatarUrl (new_user (registration_of alice) seeded_world)
     = Some "https://example.com/avatar.jpg"
  /\ findById (User.id (new_user (registration_of alice) seeded_world))
       (mkWorld (mkDB [new_user (registration_of alice) seeded_world] []
                   (characters seeded_db) [] 2 1 1) 1700000000)
     = (Return (Some (new_user (registration_of alice) seeded_world)),
        mkWorld (mkDB [new_user (registration_of alice) seeded_world] []
                   (characters seeded_db) [] 2 1 1) 1700000000)
  /\ forall e, Some "u@example.com" = Some e ->
       findByEmail e
         (mkWorld (mkDB [new_user (registration_of alice) seeded_world] []
                     (characters seeded_db) [] 2 1 1) 1700000000)
       = (Return (Some (new_user (registration_of alice) seeded_world)),
          mkWorld (mkDB [new_user (registration_of alice) seeded_world] []
                     (characters seeded_db) [] 2 1 1) 1700000000)
       /\ forall other,
            CreateUserInput.email other = Some e ->
            PrismaUserRepository_create other
              (mkWorld (mkDB [new_user (registration_of alice) seeded_world]
                          [] (characters seeded_db) [] 2 1 1) 1700000000)
            = (Throw (PrismaClientKnownRequestError "P2002" "email"),
               consume_users_id
                 (mkWorld
                    (mkDB [new_user (registration_of alice) seeded_world]
                       [] (characters seeded_db) [] 2 1 1) 1700000000)).
Proof.
  apply (PrismaUserRepository_create_then_find
           (CreateUserInput.mk (Some "https://example.com/avatar.jpg")
              (Some "u@example.com") (Some "Alice"))
           seeded_world
           (mkWorld (mkDB [new_user (registration_of alice) seeded_world] []
                       (characters seeded_db) [] 2 1 1) 1700000000)
           (new_user (registration_of alice) seeded_world));
    reflexivity.
Defined.

Lemma include_character_Return (d : DB) (c : UserCharacter.t)
    (x : UserCharacterWithCharacter) :
  include_character d c = Return x ->
  owned x = c
  /\ In (character x) (characters d)
  /\ Character.characterCode (character x) = UserCharacter.characterCode c.
Proof.
  unfold include_character.
  destruct (find _ (characters d)) as [ch|] eqn:F; [|discriminate].
  intros [= <-]. apply find_some in F as [Hin Hc]. cbn [owned character].
  repeat split; [exact Hin|].
  destruct (Character.characterCode ch), (UserCharacter.characterCode c);
    simpl in Hc; congruence.
Qed.

Lemma include_character_Throw (d : DB) (c : UserCharacter.t) (e : Error) :
  include_character d c = Throw e ->
  character_exists (UserCharacter.characterCode c) d = false.
Proof.
  unfold include_character, character_exists.
  destruct (find _ (characters d)) eqn:F; [discriminate|].
  intros _. exact (find_none_existsb _ _ F).
Qed.

Lemma include_character_exists (d : DB) (c : UserCharacter.t) :
  character_exists (UserCharacter.characterCode c) d = true ->
  exists x, include_character d c = Return x.
Proof.
  unfold include_character, character_exists. intros H.
  destruct (find _ (characters d)) eqn:F; [eauto|].
  rewrite (find_none_existsb _ _ F) in H. discriminate.
Qed.

(** [findActiveByUserId] is sound and complete and never writes: what it
    returns is a stored, active character of that user with its master
    row; it answers [null] only when the user has no active character; it
    throws only when an active character of that user has no master row.
    So on a store where every character has its master row, as the foreign
    key ensures, a user who has an active character gets one. *)
Theorem findActiveByUserId_correct (uid : Z) (w : World) :
  snd (findActiveByUserId uid w) = w
  /\ match fst (findActiveByUserId uid w) with
     | Return None =>
         forall c, In c (userCharacters (db w)) ->
                   UserCharacter.userId c = uid ->
                   UserCharacter.isActive c = false
     | Return (Some x) =>
         In (owned x) (userCharacters (db w))
         /\ UserCharacter.userId (owned x) = uid
         /\ UserCharacter.isActive (owned x) = true
         /\ In (character x) (characters (db w))
         /\ Character.characterCode (character x)
            = UserCharacter.characterCode (owned x)
     | Throw _ =>
         exists c, In c (userCharacters (db w))
                   /\ UserCharacter.userId c = uid
                   /\ UserCharacter.isActive c = true
                   /\ character_exists (UserCharacter.characterCode c) (db w)
                      = false
     end
  /\ ((forall c, In c (userCharacters (db w)) ->
                 character_exists (UserCharacter.characterCode c) (db w)
                 = true) ->
      forall c, In c (userCharacters (db w)) ->
                UserCharacter.userId c = uid ->
                UserCharacter.isActive c = true ->
      exists x, fst (findActiveByUserId uid w) = Return (Some x)).
Proof.
  unfold findActiveByUserId.
  destruct (find (active_of uid) (userCharacters (db w))) as [c|] eqn:F.
  - pose proof (find_some _ _ F) as [Hin Ha].
    unfold active_of in Ha. apply andb_true_iff in Ha as [Hact Hu].
    apply Z.eqb_eq in Hu.
    destruct (include_character (db w) c) as [x|e] eqn:I; cbn [fst snd].
    + destruct (include_character_Return _ _ _ I) as (Ho & Hc & Hcode).
      split; [reflexivity|]. split.
      * rewrite Ho. auto 6.
      * intros _ _ _ _ _. eauto.
    + split; [reflexivity|]. split.
      * exists c. repeat split; try assumption.
        exact (include_character_Throw _ _ _ I).
      * intros FK _ _ _ _. specialize (FK c Hin).
        rewrite (include_character_Throw _ _ _ I) in FK. discriminate.
  - cbn [fst snd]. split; [reflexivity|]. split.
    + intros c Hin Hu.
      pose proof (find_none _ _ F c Hin) as N. unfold active_of in N.
      rewrite Hu, Z.eqb_refl, andb_true_r in N. exact N.
    + intros _ c Hin Hu Hact.
      pose proof (find_none _ _ F c Hin) as N. unfold active_of in N.
      rewrite Hu, Z.eqb_refl, Hact in N. discriminate.
Qed.

#[global] Instance created_le_total : Total created_le.
Proof. intros a b. unfold created_le. lia. Qed.

Lemma include_characters_all (d : DB) (l : list UserCharacter.t) :
  (forall c, In c l ->
             character_exists (UserCharacter.characterCode c) d = true) ->
  exists xs, include_characters d l = Return xs /\ map owned xs = l
             /\ forall x, In x xs ->
                  In (character x) (characters d)
                  /\ Character.characterCode (character x)
                     = UserCharacter.characterCode (owned x).
Proof.
  induction l as [|c l IH]; intros H.
  - exists []. simpl. split; [reflexivity|]. split; [reflexivity|].
    intros y [].
  - destruct (include_character_exists d c (H c (or_introl eq_refl)))
      as [x Hx].
    destruct IH as (xs & Hxs & Hmap & Hall).
    { intros c' Hc'. apply H. right. exact Hc'. }
    exists (x :: xs). simpl. rewrite Hx, Hxs.
    apply include_character_Return in Hx as (Ho & Hin & Hcode).
    split; [reflexivity|]. split.
    + simpl. rewrite Ho, Hmap. reflexivity.
    + intros y [<-|Hy]; [|exact (Hall _ Hy)].
      rewrite Ho. split; [exact Hin | exact Hcode].
Qed.

(** [findByUserId] returns exactly the user's stored characters, each
    once and each with its master row, oldest first, and never writes
    (given that every stored character has its master row, as the foreign
    key ensures). *)
Theorem findByUserId_sorted_permutation (uid : Z) (w : World) :
  (forall c, In c (userCharacters (db w)) ->
             character_exists (UserCharacter.characterCode c) (db w) = true) ->
  exists xs,
    findByUserId uid w = (Return xs, w)
    /\ Permutation (map owned xs)
         (List.filter (fun c => UserCharacter.userId c =? uid)
            (userCharacters (db w)))
    /\ Sorted created_le (map owned xs)
    /\ forall x, In x xs ->
         In (character x) (characters (db w))
         /\ Character.characterCode (character x)
            = UserCharacter.characterCode (owned x).
Proof.
  intros FK. unfold findByUserId.
  destruct (include_characters_all (db w)
              (merge_sort created_le
                 (List.filter (fun c => UserCharacter.userId c =? uid)
                    (userCharacters (db w)))))
    as (xs & Hxs & Hmap & Hall).
  { intros c Hc. apply FK.
    apply list_elem_of_In in Hc. rewrite merge_sort_Permutation in Hc.
    apply list_elem_of_In in Hc. apply filter_In in Hc. tauto. }
  exists xs. rewrite Hxs, Hmap.
  split; [reflexivity|]. split; [apply merge_sort_Permutation|].
  split; [apply Sorted_merge_sort; apply _ | exact Hall].
Qed.

Lemma findByUserId_sorted_permutation_witness :
  exists xs,
    findByUserId 1 (registered (registration_of alice) seeded_world)
    = (Return xs, registered (registration_of alice) seeded_world)
    /\ Permutation (map owned xs)
         (List.filter (fun c => UserCharacter.userId c =? 1)
            (userCharacters
               (db (registered (registration_of alice) seeded_world))))
    /\ Sorted created_le (map owned xs)
    /\ forall x, In x xs ->
         In (character x)
           (characters (db (registered (registration_of alice) seeded_world)))
         /\ Character.characterCode (character x)
            = UserCharacter.characterCode (owned x).
Proof.
  apply (findByUserId_sorted_permutation 1
           (registered (registration_of alice) seeded_world)).
  intros c [<-|[]]. reflexivity.
Defined.

(** A character created without [isActive] is stored inactive, at level 1
    with no experience, and so changes no user's active character. *)
Theorem PrismaUserCharacterRepository_create_inactive_by_default
    (data : CreateUserCharacterInput.t) (w w' : World)
    (x : UserCharacterWithCharacter) :
  CreateUserCharacterInput.isActive data = None ->
  PrismaUserCharacterRepository_create data w = (Return x, w') ->
  UserCharacter.isActive (owned x) = false
  /\ UserCharacter.level (owned x) = 1
  /\ UserCharacter.experience (owned x) = 0
  /\ UserCharacter.userId (owned x) = CreateUserCharacterInput.userId data
  /\ (userCharacters (db w') = userCharacters (db w) ++ [owned x])%list
  /\ forall uid,
       fst (findActiveByUserId uid w') = fst (findActiveByUserId uid w).
Proof.
  intros A. unfold PrismaUserCharacterRepository_create, bind,
    userCharacter_create.
  rewrite A. cbn [nullish_false].
  destruct (existsb _ (userCharacters (db w))); [discriminate|].
  destruct (negb (user_exists _ (db w))); [discriminate|].
  destruct (negb (character_exists _ (db w))); [discriminate|].
  store_simpl.
  destruct (include_character _ _) as [y|e] eqn:I; [|discriminate].
  intros [= <- <-].
  apply include_character_Return in I as (-> & _ & _).
  cbn [UserCharacter.isActive UserCharacter.level UserCharacter.experience
       UserCharacter.userId].
  store_simpl. repeat split.
  intros uid. unfold findActiveByUserId. store_simpl.
  rewrite find_app_skip by reflexivity.
  destruct (find (active_of uid) (userCharacters (db w))) as [t|];
    [|reflexivity].
  unfold include_character. store_simpl.
  destruct (find _ (characters (db w))); reflexivity.
Qed.

Lemma PrismaUserCharacterRepository_create_inactive_by_default_witness :
  UserCharacter.isActive
    (UserCharacter.mk 2 1 MASTER "sensei" 1 0 false 1700000000 1700000000)
  = false
  /\ UserCharacter.level
       (UserCharacter.mk 2 1 MASTER "sensei" 1 0 false 1700000000 1700000000)
     = 1
  /\ UserCharacter.experience
       (UserCharacter.mk 2 1 MASTER "sensei" 1 0 false 1700000000 1700000000)
     = 0
  /\ UserCharacter.userId
       (UserCharacter.mk 2 1 MASTER "sensei" 1 0 false 1700000000 1700000000)
     = 1
  /\ (userCharacters
        (db (snd (PrismaUserCharacterRepository_create
                    (CreateUserCharacterInput.mk MASTER None "sensei" 1)
                    (registered (registration_of alice) seeded_world))))
      = userCharacters (db (registered (registration_of alice) seeded_world))
        ++ [UserCharacter.mk 2 1 MASTER "sensei" 1 0 false
              1700000000 1700000000])%list
  /\ forall uid,
       fst (findActiveByUserId uid
              (snd (PrismaUserCharacterRepository_create
                      (CreateUserCharacterInput.mk MASTER None "sensei" 1)
                      (registered (registration_of alice) seeded_world))))
       = fst (findActiveByUserId uid
                (registered (registration_of alice) seeded_world)).
Proof.
  apply (PrismaUserCharacterRepository_create_inactive_by_default
           (CreateUserCharacterInput.mk MASTER None "sensei" 1)
           (registered (registration_of alice) seeded_world)
           (snd (PrismaUserCharacterRepository_create
                   (CreateUserCharacterInput.mk MASTER None "sensei" 1)
                   (registered (registration_of alice) seeded_world)))
           (mkUserCharacterWithCharacter
              (UserCharacter.mk 2 1 MASTER "sensei" 1 0 false
                 1700000000 1700000000)
              (Character.mk MASTER "マスター" "あなたの成長を見守る師匠")));
    reflexivity.
Defined.

(** Insert and look up an account: an account the repository created is
    what the resolver returns for its identity, with the user it points
    to; on a well-formed store, linking the same identity again throws the
    unique-constraint error and stores no row: all it leaves behind is the
    account id it has drawn. *)
Theorem PrismaAuthAccountRepository_create_then_find
    (data : CreateAccountInput.t) (w w' : World) (a : AuthAccount.t) :
  db_wf (db w) = true ->
  PrismaAuthAccountRepository_create data w = (Return a, w') ->
  AuthAccount.userId a = CreateAccountInput.userId data
  /\ (exists u,
        In u (users (db w)) /\ User.id u = CreateAccountInput.userId data
        /\ Prisma_findByProvider (CreateAccountInput.provider data)
             (CreateAccountInput.providerAccountId data) w'
           = (Return (Some (mkAuthAccountWithUser a u)), w'))
  /\ forall other,
       CreateAccountInput.provider other = CreateAccountInput.provider data ->
       CreateAccountInput.providerAccountId other
         = CreateAccountInput.providerAccountId data ->
       PrismaAuthAccountRepository_create other w'
       = (Throw (PrismaClientKnownRequestError "P2002"
                   "provider,provider_account_id"), consume_accounts_id w').
Proof.
  intros WF. unfold PrismaAuthAccountRepository_create.
  destruct (existsb _ (authAccounts (db w))) eqn:P; [discriminate|].
  destruct (identity_linked _ _ (db w)) eqn:L; [discriminate|].
  destruct (user_exists _ (db w)) eqn:U; [|discriminate]. cbn [negb].
  intros [= <- <-]. cbn [AuthAccount.userId]. split; [reflexivity|]. split.
  - unfold user_exists in U.
    destruct (find (fun u => User.id u =? CreateAccountInput.userId data)
                (users (db w))) as [u|] eqn:F.
    2:{ rewrite (find_none_existsb _ _ F) in U. discriminate. }
    exists u. pose proof (find_some _ _ F) as [Hin Hid].
    apply Z.eqb_eq in Hid. split; [exact Hin|]. split; [exact Hid|].
    unfold Prisma_findByProvider. store_simpl.
    unfold identity_linked in L.
    rewrite (find_app_last _ _ _ L).
    2:{ unfold same_identity. simpl. rewrite !String.eqb_refl. reflexivity. }
    cbn [AuthAccount.userId]. rewrite F. reflexivity.
  - intros other O1 O2. unfold consume_accounts_id. store_simpl.
    assert (E : existsb (fun a => AuthAccount.id a =? accounts_id_seq (db w) + 1)
                  (authAccounts (db w)) = false).
    { unfold db_wf in WF. rewrite !andb_true_iff in WF.
      destruct WF as [[_ Ha] _]. revert Ha.
      apply forallb_existsb_false. intros x. lia. }
    rewrite existsb_app, E. simpl.
    replace (accounts_id_seq (db w) =? accounts_id_seq (db w) + 1)
      with false by (symmetry; apply Z.eqb_neq; lia).
    simpl. unfold identity_linked. store_simpl.
    rewrite existsb_app, O1, O2. simpl.
    unfold same_identity at 2. simpl. rewrite !String.eqb_refl.
    simpl. rewrite orb_true_r. reflexivity.
Qed.

Lemma PrismaAuthAccountRepository_create_then_find_witness :
  AuthAccount.userId
    (AuthAccount.mk 2 1 "github" "gh-7" None None None None None None
       1700000000 1700000000) = 1
  /\ (exists u,
        In u (users (db (registered (registration_of alice) seeded_world)))
        /\ User.id u = 1
        /\ Prisma_findByProvider "github" "gh-7"
             (snd (PrismaAuthAccountRepository_create
                     (CreateAccountInput.mk None None None "github" "gh-7"
                        None None None 1)
                     (registered (registration_of alice) seeded_world)))
           = (Return
                (Some (mkAuthAccountWithUser
                         (AuthAccount.mk 2 1 "github" "gh-7" None None None
                            None None None 1700000000 1700000000) u)),
              snd (PrismaAuthAccountRepository_create
                     (CreateAccountInput.mk None None None "github" "gh-7"
                        None None None 1)
                     (registered (registration_of alice) seeded_world))))
  /\ forall other,
       CreateAccountInput.provider other = "github" ->
       CreateAccountInput.providerAccountId other = "gh-7" ->
       PrismaAuthAccountRepository_create other
         (snd (PrismaAuthAccountRepository_create
                 (CreateAccountInput.mk None None None "github" "gh-7" None
                    None None 1)
                 (registered (registration_of alice) seeded_world)))
       = (Throw (PrismaClientKnownRequestError "P2002"
                   "provider,provider_account_id"),
          consume_accounts_id
            (snd (PrismaAuthAccountRepository_create
                    (CreateAccountInput.mk None None None "github" "gh-7"
                       None None None 1)
                    (registered (registration_of alice) seeded_world)))).
Proof.
  apply (PrismaAuthAccountRepository_create_then_find
           (CreateAccountInput.mk None None None "github" "gh-7" None None
              None 1)
           (registered (registration_of alice) seeded_world)
           (snd (PrismaAuthAccountRepository_create
                   (CreateAccountInput.mk None None None "github" "gh-7" None
                      None None 1)
                   (registered (registration_of alice) seeded_world)))
           (AuthAccount.mk 2 1 "github" "gh-7" None None None None None None
              1700000000 1700000000));
    reflexivity.
Defined.

(* ================================================================== *)
(** * The seed *)
(* ================================================================== *)

Lemma find_Some_existsb {A} (f : A -> bool) (l : list A) (x : A) :
  find f l = Some x -> existsb f l = true.
Proof.
  intros F. apply find_some in F as [Hin Hf].
  apply existsb_exists. eauto.
Qed.

Lemma character_upsert_result (code : CharacterCode) (name description : string)
    (w : World) :
  exists ch added,
    character_upsert code name description w
    = (Return ch,
       mkWorld
         (mkDB (users (db w)) (authAccounts (db w))
            (characters (db w) ++ added) (userCharacters (db w))
            (users_id_seq (db w)) (accounts_id_seq (db w))
            (user_characters_id_seq (db w)))
         (clock w))
    /\ (added = [] \/ added = [Character.mk code name description])
    /\ (character_exists code (db w) = true -> added = [])
    /\ existsb (has_code code) (characters (db w) ++ added) = true.
Proof.
  unfold character_upsert, character_exists.
  destruct (find (has_code code) (characters (db w))) as [ch|] eqn:F.
  - exists ch, []. rewrite app_nil_r. destruct w as [[] ?].
    repeat split; auto. exact (find_Some_existsb _ _ _ F).
  - exists (Character.mk code name description),
      [Character.mk code name description].
    repeat split; auto.
    + intros H. change (existsb (has_code code) (characters (db w)) = true)
        in H.
      rewrite (find_none_existsb _ _ F) in H. discriminate.
    + rewrite existsb_app. simpl. unfold has_code at 2. simpl.
      destruct code; simpl; rewrite orb_true_r; reflexivity.
Qed.

(** The seed always succeeds; afterwards both master characters exist; it
    keeps every existing character row as it is and adds at most the two
    missing ones; it touches no other table or sequence; and running it
    again changes nothing. *)
Theorem seed_main_establishes_characters (w : World) :
  exists added,
    seed_main w
    = (Return tt,
       mkWorld
         (mkDB (users (db w)) (authAccounts (db w))
            (characters (db w) ++ added) (userCharacters (db w))
            (users_id_seq (db w)) (accounts_id_seq (db w))
            (user_characters_id_seq (db w)))
         (clock w))
    /\ (length added <= 2)%nat
    /\ character_exists TRAECHAN (db (snd (seed_main w))) = true
    /\ character_exists MASTER (db (snd (seed_main w))) = true
    /\ seed_main (snd (seed_main w)) = (Return tt, snd (seed_main w)).
Proof.
  assert (Run : forall w0, exists added,
    seed_main w0
    = (Return tt,
       mkWorld
         (mkDB (users (db w0)) (authAccounts (db w0))
            (characters (db w0) ++ added) (userCharacters (db w0))
            (users_id_seq (db w0)) (accounts_id_seq (db w0))
            (user_characters_id_seq (db w0)))
         (clock w0))
    /\ (length added <= 2)%nat
    /\ existsb (has_code TRAECHAN) (characters (db w0) ++ added) = true
    /\ existsb (has_code MASTER) (characters (db w0) ++ added) = true
    /\ (character_exists TRAECHAN (db w0) = true ->
        character_exists MASTER (db w0) = true -> added = [])).
  { intros w0. unfold seed_main, bind, ret.
    destruct (character_upsert_result TRAECHAN "トレちゃん"
                "目標達成をサポートするあなたの相棒" w0)
      as (c1 & a1 & -> & L1 & N1 & E1).
    match goal with |- context [character_upsert MASTER ?n ?d ?w1] =>
      destruct (character_upsert_result MASTER n d w1)
        as (c2 & a2 & -> & L2 & N2 & E2) end.
    store_simpl. cbn [db characters] in *.
    exists (a1 ++ a2)%list. rewrite app_assoc.
    split; [reflexivity|]. split.
    { rewrite length_app.
      destruct L1 as [->| ->], L2 as [->| ->]; simpl; lia. }
    split.
    { rewrite existsb_app, E1. reflexivity. }
    split; [exact E2|].
    intros T M. rewrite (N1 T). simpl. apply N2.
    unfold character_exists. store_simpl. rewrite (N1 T), app_nil_r.
    exact M. }
  destruct (Run w) as (added & E & L & T & M & _).
  exists added. rewrite E. cbn [snd db].
  split; [reflexivity|]. split; [exact L|].
  split; [exact T|]. split; [exact M|].
  destruct (Run (mkWorld
                   (mkDB (users (db w)) (authAccounts (db w))
                      (characters (db w) ++ added) (userCharacters (db w))
                      (users_id_seq (db w)) (accounts_id_seq (db w))
                      (user_characters_id_seq (db w)))
                   (clock w))) as (added' & E' & _ & _ & _ & N).
  rewrite E'. store_simpl. rewrite (N T M), app_nil_r. reflexivity.
Qed.

(* ================================================================== *)
(** * Sign-in: edge cases and the service before the transaction *)
(* ================================================================== *)

(** A token [generateToken] returned is accepted until its expiry. *)
Lemma generateToken_accepted
    (hmac : string -> string -> Z) (ms : string -> option Z)
    (jwt : JwtModule) (uid now span now' : Z) (tok : string) :
  ms (JWT_EXPIRATION jwt) = Some span ->
  generateToken hmac ms jwt now uid = Return tok ->
  now' < now + span / 1000 ->
  verifyToken hmac jwt now' tok
  = Return (Some (mkJWTPayload (Some (now + span / 1000)) (Some now) uid)).
Proof.
  intros Hms. unfold generateToken, jwt_sign. rewrite Hms. intros [= <-] Hlt.
  rewrite verifyToken_unfold, jwt_verify_signed; [reflexivity|].
  simpl. intros e [= <-]. exact Hlt.
Qed.

(** What a sign-in over the Prisma repositories has done when it
    returns. *)
Lemma authenticateWithGoogle_Return
    (hmac : string -> string -> Z) (ms : string -> option Z)
    (jwt : JwtModule) (code : string) (google : GoogleOAuthClient)
    (w w' : World) (r : AuthenticateWithGoogleResult) :
  authenticateWithGoogle hmac ms jwt code prisma_repositories google w
    = (Return r, w') ->
  clock w' = clock w
  /\ generateToken hmac ms jwt (clock w) (User.id (result_user r))
     = Return (jwtToken r)
  /\ forall t, findById (User.id (result_user r)) (mkWorld (db w') t)
               = (Return (Some (result_user r)), mkWorld (db w') t).
Proof.
  rewrite authenticateWithGoogle_unfold.
  destruct (getUserInfo google code) as [g|e]; [|discriminate].
  cbn [prisma_repositories authAccountRepository userRegistrationRepository
       findByProvider PrismaAuthAccountRepository
       createUserWithAuthAccountAndUserCharacterTx
       PrismaUserRegistrationRepository].
  unfold Prisma_findByProvider.
  destruct (find _ (authAccounts (db w))) as [a|] eqn:F.
  - destruct (find _ (users (db w))) as [u|] eqn:U; [|discriminate].
    unfold finish. cbn [user].
    destruct (generateToken hmac ms jwt (clock w) (User.id u)) as [tok|e]
      eqn:G; [|discriminate].
    intros [= <- <-]. cbn [result_user jwtToken].
    split; [reflexivity|]. split; [exact G|].
    intros t. unfold findById. store_simpl.
    pose proof (find_some _ _ U) as [_ Hid]. apply Z.eqb_eq in Hid.
    rewrite Hid, U. reflexivity.
  - destruct (can_register (registration_of g) (db w)) eqn:C.
    + rewrite (createUser_commits _ _ C). unfold finish.
      destruct (generateToken hmac ms jwt _ _) as [tok|e] eqn:G;
        [|discriminate].
      intros [= <- <-]. cbn [result_user jwtToken].
      split; [reflexivity|]. split; [exact G|].
      intros t. unfold findById, registered. store_simpl.
      unfold can_register in C. rewrite !andb_true_iff, !negb_true_iff in C.
      destruct C as [[[[[C1 _] _] _] _] _].
      rewrite (find_app_last _ _ _ C1); [reflexivity|].
      simpl. apply Z.eqb_refl.
    + destruct (createUser_rolls_back _ _ C) as (e & s2 & s3 & -> & _).
      discriminate.
Qed.

(** If the configured life time is one the signer rejects, a first sign-in
    that passes every constraint registers the user and then throws: the
    account exists, no token was issued, and every later sign-in for it
    throws the same error without writing. *)
Theorem authenticateWithGoogle_rejected_lifetime
    (hmac : string -> string -> Z) (ms : string -> option Z)
    (jwt : JwtModule) (code : string) (google : GoogleOAuthClient)
    (g : GoogleUserInfo.t) (w : World) :
  ms (JWT_EXPIRATION jwt) = None ->
  getUserInfo google code = Return g ->
  can_register (registration_of g) (db w) = true ->
  exists e,
    authenticateWithGoogle hmac ms jwt code prisma_repositories google w
    = (Throw e, registered (registration_of g) w)
    /\ forall t,
         authenticateWithGoogle hmac ms jwt code prisma_repositories google
           (mkWorld (db (registered (registration_of g) w)) t)
         = (Throw e, mkWorld (db (registered (registration_of g) w)) t).
Proof.
  intros Hms G C. eexists. split.
  - rewrite authenticateWithGoogle_unfold, G.
    cbn [prisma_repositories authAccountRepository
         userRegistrationRepository findByProvider
         PrismaAuthAccountRepository
         createUserWithAuthAccountAndUserCharacterTx
         PrismaUserRegistrationRepository].
    rewrite Prisma_findByProvider_unlinked.
    2:{ unfold can_register in C.
        rewrite !andb_true_iff, !negb_true_iff in C.
        destruct C as [[[[[_ _] _] C4] _] _]. exact C4. }
    rewrite (createUser_commits _ _ C).
    unfold finish, generateToken, jwt_sign. rewrite Hms. reflexivity.
  - intros t. rewrite authenticateWithGoogle_unfold, G.
    cbn [prisma_repositories authAccountRepository findByProvider
         PrismaAuthAccountRepository].
    pose proof (Prisma_findByProvider_registered (registration_of g) w t C)
      as F.
    cbn [registration_of RegistrationInput.provider
         RegistrationInput.providerAccountId RegistrationInput.authAccount]
      in F.
    rewrite F. unfold finish, generateToken, jwt_sign. rewrite Hms.
    reflexivity.
Qed.

Lemma authenticateWithGoogle_rejected_lifetime_witness :
  exists e,
    authenticateWithGoogle test_hmac test_ms (mkJwtModule "s3cret" "soon")
      "code-1" prisma_repositories test_google seeded_world
    = (Throw e, registered (registration_of alice) seeded_world)
    /\ forall t,
         authenticateWithGoogle test_hmac test_ms
           (mkJwtModule "s3cret" "soon") "code-1" prisma_repositories
           test_google
           (mkWorld (db (registered (registration_of alice) seeded_world)) t)
         = (Throw e,
            mkWorld (db (registered (registration_of alice) seeded_world)) t).
Proof.
  apply (authenticateWithGoogle_rejected_lifetime test_hmac test_ms
           (mkJwtModule "s3cret" "soon") "code-1" test_google alice
           seeded_world);
    reflexivity.
Defined.

(** Without the transaction a failed registration is partial: on a store
    whose master character is missing, the service that creates the user,
    the account and the character by three separate calls throws the
    foreign-key error after it has stored the user and linked the account,
    whereas the registration transaction throws the same error and leaves
    no row.  Either way one id of each sequence is spent. *)
Theorem authenticateWithGoogle_separate_leaves_partial_user
    (hmac : string -> string -> Z) (ms : string -> option Z)
    (jwt : JwtModule) (code : string) (google : GoogleOAuthClient)
    (g : GoogleUserInfo.t) (w : World) :
  db_wf (db w) = true ->
  getUserInfo google code = Return g ->
  identity_linked "google" (GoogleUserInfo.id g) (db w) = false ->
  email_taken (Some (GoogleUserInfo.email g)) (db w) = false ->
  character_exists TRAECHAN (db w) = false ->
  authenticateWithGoogle_separate hmac ms jwt code google w
  = (Throw (PrismaClientKnownRequestError "P2003"
              "user_characters_character_code_fkey"),
     mkWorld
       (mkDB (users (db w) ++ [new_user (registration_of g) w])
          (authAccounts (db w) ++ [new_account (registration_of g) w])
          (characters (db w)) (userCharacters (db w))
          (users_id_seq (db w) + 1) (accounts_id_seq (db w) + 1)
          (user_characters_id_seq (db w) + 1))
       (clock w))
  /\ createUserWithAuthAndCharacter (registration_of g) w
     = (Throw (PrismaClientKnownRequestError "P2003"
                 "user_characters_character_code_fkey"),
        mkWorld
          (mkDB (users (db w)) (authAccounts (db w)) (characters (db w))
             (userCharacters (db w))
             (users_id_seq (db w) + 1) (accounts_id_seq (db w) + 1)
             (user_characters_id_seq (db w) + 1))
          (clock w)).
Proof.
  intros WF G L E C.
  destruct (db_wf_fresh _ WF) as (F1 & F2 & F3 & _).
  split.
  - unfold authenticateWithGoogle_separate, bind, sync. rewrite G.
    rewrite (Prisma_findByProvider_unlinked _ _ _ L).
    unfold PrismaUserRepository_create, user_create.
    cbn [CreateUserInput.avatarUrl CreateUserInput.email CreateUserInput.name].
    rewrite F1, E. store_simpl.
    unfold PrismaAuthAccountRepository_create.
    cbn [CreateAccountInput.provider CreateAccountInput.providerAccountId
         CreateAccountInput.userId CreateAccountInput.accessToken
         CreateAccountInput.refreshToken CreateAccountInput.expiresAt
         CreateAccountInput.tokenType CreateAccountInput.scope
         CreateAccountInput.idToken].
    store_simpl. rewrite F2. unfold identity_linked in *. store_simpl.
    rewrite L, user_exists_after_insert. store_simpl.
    unfold PrismaUserCharacterRepository_create, bind, userCharacter_create.
    cbn [CreateUserCharacterInput.characterCode
         CreateUserCharacterInput.isActive CreateUserCharacterInput.nickName
         CreateUserCharacterInput.userId nullish_false].
    store_simpl. rewrite F3, user_exists_after_insert. store_simpl.
    unfold character_exists in *. store_simpl. rewrite C. reflexivity.
  - unfold createUserWithAuthAndCharacter, transaction, bind, user_create.
    cbn [registration_of RegistrationInput.email RegistrationInput.user
         RegistrationInput.name RegistrationInput.avatarUrl
         RegistrationInput.provider RegistrationInput.providerAccountId
         RegistrationInput.authAccount RegistrationInput.characterCode
         RegistrationInput.isActive RegistrationInput.nickName
         RegistrationInput.userCharacter nullish_false].
    rewrite F1, E. store_simpl.
    unfold authAccount_create. store_simpl.
    rewrite F2. unfold identity_linked in *. store_simpl.
    rewrite L, user_exists_after_insert. store_simpl.
    unfold userCharacter_create. store_simpl.
    rewrite F3, user_exists_after_insert. store_simpl.
    unfold character_exists in *. store_simpl. rewrite C. reflexivity.
Qed.

Lemma authenticateWithGoogle_separate_leaves_partial_user_witness :
  authenticateWithGoogle_separate test_hmac test_ms test_jwt "code-1"
    test_google (mkWorld (mkDB [] [] [] [] 1 1 1) 1700000000)
  = (Throw (PrismaClientKnownRequestError "P2003"
              "user_characters_character_code_fkey"),
     mkWorld
       (mkDB
          [new_user (registration_of alice)
             (mkWorld (mkDB [] [] [] [] 1 1 1) 1700000000)]
          [new_account (registration_of alice)
             (mkWorld (mkDB [] [] [] [] 1 1 1) 1700000000)]
          [] [] 2 2 2)
       1700000000)
  /\ createUserWithAuthAndCharacter (registration_of alice)
       (mkWorld (mkDB [] [] [] [] 1 1 1) 1700000000)
     = (Throw (PrismaClientKnownRequestError "P2003"
                 "user_characters_character_code_fkey"),
        mkWorld (mkDB [] [] [] [] 2 2 2) 1700000000).
Proof.
  apply (authenticateWithGoogle_separate_leaves_partial_user test_hmac
           test_ms test_jwt "code-1" test_google alice
           (mkWorld (mkDB [] [] [] [] 1 1 1) 1700000000));
    reflexivity.
Defined.

(* ================================================================== *)
(** * The controllers and the routes *)
(* ================================================================== *)

Section ControllerFacts.

Variable hmac : string -> string -> Z.
Variable ms : string -> option Z.
Variable jwt : JwtModule.
Variable toISOString : Z -> string.
Variable prisma_message : string -> string -> string.

(** The guard on a header [Bearer t] whose token is accepted. *)
Lemma authMiddleware_pass (now : Z) (t : string) (p : JWTPayload)
    (uid0 : option Z) :
  verifyToken hmac jwt now t = Return (Some p) ->
  authMiddleware hmac jwt now (fun _ => Return tt)
    (mkAuthRequest (Some ("Bearer " ++ t)) uid0)
  = mkExchange (mkAuthRequest (Some ("Bearer " ++ t)) (Some (userId p)))
      None [mkAuthRequest (Some ("Bearer " ++ t)) (Some (userId p))].
Proof.
  intros V. unfold authMiddleware. cbn [authorization].
  change (substring_from 7 (default "" (Some ("Bearer " ++ t)))) with t.
  replace (truthy (Some ("Bearer " ++ t))) with true by reflexivity.
  replace (startsWith (default "" (Some ("Bearer " ++ t))) "Bearer ")
    with true.
  2:{ unfold startsWith. simpl. destruct t; reflexivity. }
  simpl negb. simpl orb. cbv iota. rewrite V. reflexivity.
Qed.



(** The callback answers 400 exactly when [code] is absent, not a string
    or empty, and then before anything else happens: Google is not asked
    and the store is not touched.  Whatever the service does, the
    controller itself never throws. *)
Theorem AuthGoogleCallbackController_validates_code
    (repository : Repositories) (google : GoogleOAuthClient)
    (code : option QueryValue) (w : World) :
  exists h w',
    AuthGoogleCallbackController_execute hmac ms jwt toISOString
      prisma_message repository google code w = (Return h, w')
    /\ (status h = 400 <-> forall s, code = Some (QString s) -> s = "")
    /\ (status h = 400 ->
        w' = w /\ h = error_response 400 "Invalid request parameters").
Proof.
  unfold AuthGoogleCallbackController_execute.
  destruct code as [[s| |]|]; cbn [parse_callback_request].
  1: destruct (String.eqb_spec s "") as [->|Hs].
  2:{ destruct (authenticateWithGoogle hmac ms jwt s repository google w)
        as [[r|e] w1]; eexists; eexists; (split; [reflexivity|]);
        cbn [status error_response]; split;
        try (split; [discriminate|intros H; exfalso; apply Hs;
                                  exact (H s eq_refl)]);
        discriminate. }
  all: eexists; eexists; (split; [reflexivity|]);
    cbn [status error_response]; split;
    [ split; [intros _ s' [=]; subst; reflexivity | reflexivity]
    | intros _; split; reflexivity ].
Qed.

(** After a successful callback the token in the answer is a valid
    session for the user in the answer: until its expiry [verifyToken]
    accepts it with that user's id, and that user is stored, with the
    profile the answer shows. *)
Theorem route_google_callback_token_is_session
    (google : GoogleOAuthClient) (code : option QueryValue) (w w' : World)
    (b : AuthGoogleCallbackResponse.t) (span : Z) :
  ms (JWT_EXPIRATION jwt) = Some span ->
  route_google_callback hmac ms jwt toISOString prisma_message google code w
    = (Return (mkHttpResponse 200 (CallbackBody b)), w') ->
  (forall now', now' < clock w + span / 1000 ->
     exists p,
       verifyToken hmac jwt now' (AuthGoogleCallbackResponse.token b)
         = Return (Some p)
       /\ userId p = AuthMeResponse.id (AuthGoogleCallbackResponse.user b))
  /\ exists u,
       findById (AuthMeResponse.id (AuthGoogleCallbackResponse.user b)) w'
         = (Return (Some u), w')
       /\ summary_of toISOString u = AuthGoogleCallbackResponse.user b.
Proof.
  intros Hms. unfold route_google_callback,
    AuthGoogleCallbackController_execute.
  destruct (parse_callback_request code) as [c|]; [|discriminate].
  fold prisma_repositories.
  destruct (authenticateWithGoogle hmac ms jwt c prisma_repositories google w)
    as [[r|e] w1] eqn:A; [|discriminate].
  intros [= <- <-].
  destruct (authenticateWithGoogle_Return _ _ _ _ _ _ _ _ A)
    as (Hc & G & F).
  cbn [AuthGoogleCallbackResponse.token AuthGoogleCallbackResponse.user
       AuthMeResponse.id summary_of].
  split.
  - intros now' Hlt. eexists.
    rewrite (generateToken_accepted _ _ _ _ _ _ _ _ Hms G Hlt).
    split; reflexivity.
  - exists (result_user r). split; [|reflexivity].
    specialize (F (clock w1)). destruct w1 as [d1 t1]. exact F.
Qed.

(** [GET /me] always answers and never writes.  A request the guard
    rejects is answered 401; a request bearing an accepted token is
    answered 200 with the profile of the stored user the token names, or
    404 when no such user is stored. *)
Theorem route_me_answers (r : AuthRequest) (w : World) :
  exists h,
    route_me hmac jwt toISOString prisma_message r w = (Return (Some h), w)
    /\ (forall hd p,
          authorization r = Some hd ->
          startsWith hd "Bearer " = true ->
          verifyToken hmac jwt (clock w) (substring_from 7 hd)
            = Return (Some p) ->
          h = match find (fun u => User.id u =? userId p) (users (db w)) with
              | Some u =>
                  mkHttpResponse 200 (AuthMeBody (summary_of toISOString u))
              | None => error_response 404 "User not found"
              end)
    /\ ((authorization r = None
         \/ (exists hd, authorization r = Some hd
                        /\ startsWith hd "Bearer " = false)
         \/ (exists hd, authorization r = Some hd
                        /\ verifyToken hmac jwt (clock w)
                             (substring_from 7 hd) = Return None))
        -> status h = 401).
Proof.
  unfold route_me, authMiddleware.
  destruct (authorization r) as [hd|] eqn:A; simpl default.
  2:{ eexists. split; [reflexivity|]. split; [discriminate|reflexivity]. }
  destruct (truthy (Some hd)) eqn:T; simpl negb; cbv iota.
  2:{ eexists. split; [reflexivity|]. split; [|reflexivity].
      intros hd' p [= <-] S. destruct hd; [discriminate S|discriminate T]. }
  destruct (startsWith hd "Bearer ") eqn:B; simpl negb; simpl orb; cbv iota.
  2:{ eexists. split; [reflexivity|]. split; [|reflexivity].
      intros hd' p [= <-]. congruence. }
  pose proof (verifyToken_unfold hmac jwt (clock w) (substring_from 7 hd))
    as V.
  destruct (jwt_verify hmac (substring_from 7 hd) (JWT_SECRET jwt) (clock w))
    as [p|e]; rewrite V.
  - cbn [passed_on]. unfold AuthMeController_execute, getUserById, findById.
    cbn [req_userId].
    destruct (find (fun u => User.id u =? userId p) (users (db w)))
      as [u|] eqn:F; cbn [fst snd].
    + eexists. split; [reflexivity|]. split.
      * intros hd' p' [= <-] _ V'. rewrite V in V'. injection V' as <-.
        rewrite F. reflexivity.
      * intros [[=] | [(hd' & [= <-] & B') | (hd' & [= <-] & V')]];
          congruence.
    + eexists. split; [reflexivity|]. split.
      * intros hd' p' [= <-] _ V'. rewrite V in V'. injection V' as <-.
        rewrite F. reflexivity.
      * intros [[=] | [(hd' & [= <-] & B') | (hd' & [= <-] & V')]];
          congruence.
  - eexists. split; [reflexivity|]. split; [|reflexivity].
    intros hd' p [= <-] _ V'. rewrite V in V'. discriminate V'.
Qed.

(** Sign-in, then [GET /me]: the token a successful callback answered
    with, sent as [Authorization: Bearer <token>] at any later moment
    before its expiry, is answered 200 with the very user object the
    callback showed. *)
Theorem route_me_after_google_callback
    (google : GoogleOAuthClient) (code : option QueryValue) (w w' : World)
    (b : AuthGoogleCallbackResponse.t) (span t' : Z) (uid0 : option Z) :
  ms (JWT_EXPIRATION jwt) = Some span ->
  route_google_callback hmac ms jwt toISOString prisma_message google code w
    = (Return (mkHttpResponse 200 (CallbackBody b)), w') ->
  t' < clock w + span / 1000 ->
  route_me hmac jwt toISOString prisma_message
    (mkAuthRequest
       (Some ("Bearer " ++ AuthGoogleCallbackResponse.token b)) uid0)
    (mkWorld (db w') t')
  = (Return (Some (mkHttpResponse 200
                     (AuthMeBody (AuthGoogleCallbackResponse.user b)))),
     mkWorld (db w') t').
Proof.
  intros Hms. unfold route_google_callback,
    AuthGoogleCallbackController_execute.
  destruct (parse_callback_request code) as [c|]; [|discriminate].
  fold prisma_repositories.
  destruct (authenticateWithGoogle hmac ms jwt c prisma_repositories google w)
    as [[r|e] w1] eqn:A; [|discriminate].
  intros [= <- <-] Hlt.
  destruct (authenticateWithGoogle_Return _ _ _ _ _ _ _ _ A)
    as (Hc & G & F).
  cbn [AuthGoogleCallbackResponse.token AuthGoogleCallbackResponse.user].
  unfold route_me. cbn [clock].
  rewrite (authMiddleware_pass _ _ _ _
             (generateToken_accepted _ _ _ _ _ _ _ _ Hms G Hlt)).
  cbn [passed_on userId]. unfold AuthMeController_execute, getUserById.
  cbn [req_userId]. rewrite (F t'). reflexivity.
Qed.

End ControllerFacts.

Lemma route_google_callback_token_is_session_witness :
  (forall now', now' < clock seeded_world + 2592000000 / 1000 ->
     exists p,
       verifyToken test_hmac test_jwt now'
         "HS256.1,1700000000,1702592000.439430" = Return (Some p)
       /\ userId p = 1)
  /\ exists u,
       findById 1 (registered (registration_of alice) seeded_world)
         = (Return (Some u), registered (registration_of alice) seeded_world)
       /\ summary_of dec u
          = summary_of dec (new_user (registration_of alice) seeded_world).
Proof.
  apply (route_google_callback_token_is_session test_hmac test_ms test_jwt
           dec (fun c t => c ++ ": " ++ t) test_google
           (Some (QString "code-1")) seeded_world
           (registered (registration_of alice) seeded_world)
           (AuthGoogleCallbackResponse.mk true
              "HS256.1,1700000000,1702592000.439430"
              (summary_of dec
                 (new_user (registration_of alice) seeded_world)))
           2592000000);
    reflexivity.
Defined.

Lemma route_me_after_google_callback_witness :
  route_me test_hmac test_jwt dec (fun c t => c ++ ": " ++ t)
    (mkAuthRequest (Some ("Bearer " ++ "HS256.1,1700000000,1702592000.439430"))
       None)
    (mkWorld (db (registered (registration_of alice) seeded_world))
       1700086400)
  = (Return (Some (mkHttpResponse 200
                     (AuthMeBody
                        (summary_of dec
                           (new_user (registration_of alice)
                              seeded_world))))),
     mkWorld (db (registered (registration_of alice) seeded_world))
       1700086400).
Proof.
  apply (route_me_after_google_callback test_hmac test_ms test_jwt
           dec (fun c t => c ++ ": " ++ t) test_google
           (Some (QString "code-1")) seeded_world
           (registered (registration_of alice) seeded_world)
           (AuthGoogleCallbackResponse.mk true
              "HS256.1,1700000000,1702592000.439430"
              (summary_of dec
                 (new_user (registration_of alice) seeded_world)))
           2592000000 1700086400 None);
    reflexivity.
Defined.
